(** * instant.bible: the search header (web) and the verse result adapter (Android)

    A shallow embedding of [packages/web/src/app/header.tsx], which holds two
    presentation-layer fragments:

    - the React [Header] component (lines 1-99): a controlled search input,
      a keyup handler for [/] and one for [Escape];
    - the Kotlin [VerseResultAdapter] (lines 100-224): a [RecyclerView]
      adapter that binds verse results to view holders, highlights the
      matched words and toggles the translation buttons.

    Framework code (React, the DOM, the Android widgets, the Kotlin regular
    expression engine) is not part of the repository: what the fragments use
    of it is collected in interfaces ([RegexEngine], [AndroidPlatform], the
    section variables of [Header]), which [Fixtures] instantiates for the
    worked examples.  The definitions come first, the properties after
    them. *)

From Stdlib Require Import ZArith Lia.
From stdpp Require Import base option list strings gmap pretty.

Open Scope Z_scope.

(** ** Kotlin: exceptions and mutable receivers *)

Module Kotlin.

(** The exceptions the adapter can raise; none is caught in the source. *)
Inductive Throwable :=
| IndexOutOfBoundsException
| ClassCastException
| NullPointerException
| PatternSyntaxException.

#[global] Instance Throwable_eq_dec : EqDecision Throwable.
Proof. solve_decision. Defined.

(** An expression either yields a value or throws. *)
Inductive Result (A : Type) :=
| Ok (a : A)
| Throw (e : Throwable).
Arguments Ok {A} a.
Arguments Throw {A} e.

#[global] Instance Result_ret : MRet Result := fun _ a => Ok a.
#[global] Instance Result_bind : MBind Result := fun _ _ f r =>
  match r with
  | Ok a => f a
  | Throw e => Throw e
  end.

(** A method body that mutates an object of type [S]: the object's fields
    before the call go in, the outcome and the fields as the body left
    them come out.  A throw keeps the writes made before it. *)
Definition M (S A : Type) : Type := S -> Result A * S.

#[global] Instance M_ret {S} : MRet (M S) := fun _ a s => (Ok a, s).
#[global] Instance M_bind {S} : MBind (M S) := fun _ _ f m s =>
  match m s with
  | (Ok a, s') => f a s'
  | (Throw e, s') => (Throw e, s')
  end.

Definition gets {S A} (f : S -> A) : M S A := fun s => (Ok (f s), s).
Definition modify {S} (f : S -> S) : M S () := fun s => (Ok (), f s).
Definition lift {S A} (r : Result A) : M S A := fun s => (r, s).

(** [for (x in xs) body] *)
Fixpoint forEach {S A} (xs : list A) (body : A -> M S ()) : M S () :=
  match xs with
  | [] => mret ()
  | x :: xs' => _ ← body x; forEach xs' body
  end.

(** [a until b]: the integers from [a] up to, not including, [b]. *)
Definition until (a b : Z) : list Z := seqZ a (b - a).

(** [list[index]] on a read-only [List]: [IndexOutOfBoundsException]
    outside [0 until size]. *)
Definition get {A} (l : list A) (index : Z) : Result A :=
  if bool_decide (0 <= index < Z.of_nat (length l)) then
    match l !! Z.to_nat index with
    | Some x => Ok x
    | None => Throw IndexOutOfBoundsException
    end
  else Throw IndexOutOfBoundsException.

(** [Iterable.fold(initial, operation)], for an operation that may throw:
    the accumulator is threaded left to right and the first throw ends the
    fold. *)
Definition fold {A R} (l : list A) (initial : R) (operation : R -> A -> Result R)
  : Result R :=
  foldl (fun acc element => accumulator ← acc; operation accumulator element)
        (Ok initial) l.

(** [Int.toString()], as string templates render an [Int]. *)
Definition Int_toString (n : Z) : string := pretty n.

(** *** kotlin.text.Regex *)

Inductive RegexOption := IGNORE_CASE | MULTILINE | LITERAL.

(** An input cut at the successive matches of a regular expression: the
    text kept between two matches, and the matches ([MatchResult.value]). *)
Inductive Piece :=
| Kept (s : string)
| Match (value : string).

(** The regular expression engine is the JVM's.  [toRegex] compiles a
    pattern ([PatternSyntaxException] when it is malformed) and
    [findAll] cuts an input at the matches. *)
Class RegexEngine := {
  Regex : Type;
  toRegex : string -> RegexOption -> Result Regex;
  findAll : Regex -> string -> list Piece;
}.

(** [Regex.replace(input, transform)]: every match is replaced by
    [transform] of it, the text between the matches stays. *)
Definition replace `{RegexEngine} (re : Regex) (input : string)
    (transform : string -> string) : string :=
  foldr (fun p out =>
           match p with
           | Kept s => s +:+ out
           | Match value => transform value +:+ out
           end) "" (findAll re input).

End Kotlin.

Import Kotlin.

(** ** The verse result adapter (Kotlin, lines 100-224) *)

Module Adapter.

(** What the adapter uses of the Android framework, of the resource class
    [R] that the build generates and of the other packages of the
    application.  None of it is defined in the file under verification. *)
Class AndroidPlatform := {
  (** [android.content.Context], [android.text.Spanned] and
      [android.graphics.drawable.Drawable] *)
  Context : Type;
  Spanned : Type;
  Drawable : Type;
  (** [HtmlCompat.fromHtml(source, flags)] *)
  fromHtml : string -> Z -> Spanned;
  (** [ContextCompat.getColor(context, id)] *)
  getColor : Context -> Z -> Z;
  (** [Build.VERSION.SDK_INT] *)
  SDK_INT : Z;
  (** [R.color.ibTextHighlight], [R.style.ibButton], [R.style.ibButtonBold],
      [R.string.translation_tag] and [R.layout.verse_result_view] *)
  R_color_ibTextHighlight : Z;
  R_style_ibButton : Z;
  R_style_ibButtonBold : Z;
  R_string_translation_tag : Z;
  R_layout_verse_result_view : Z;
  (** [bible.instant.getBookName] and [bible.instant.getTranslationLabel] *)
  getBookName : Z -> string;
  getTranslationLabel : Z -> string;
  (** [Data.Translation.TOTAL_VALUE] *)
  TOTAL_VALUE : Z;
  (** what a freshly constructed [Button] takes from the theme *)
  themeTextAppearance : Z;
  themeButtonBackground : Drawable;
  themeButtonMinWidth : Z;
  themeButtonMinHeight : Z;
  themeButtonPadding : Z * Z * Z * Z;
}.

(** [HtmlCompat.FROM_HTML_MODE_LEGACY] *)
Definition FROM_HTML_MODE_LEGACY : Z := 0.

(** [LinearLayout.LayoutParams.WRAP_CONTENT] *)
Definition WRAP_CONTENT : Z := -2.

(** *** The search service's results *)

(** Modelled from the spec: the key of a verse result, a class generated
    from the service's protocol definition, which is not in the source
    tree.  [book] is the number of the enumeration value; the adapter reads
    the three fields for the title. *)
Record VerseKey := {
  book : Z;
  chapter : Z;
  verse : Z;
}.

(** Modelled from the spec: [Service.Response.VerseResult], generated the
    same way and not in the source tree either.  The spec's data model has
    "a list of verse results with highlight terms and per-translation
    text"; the fields are the ones the adapter reads, and
    [topTranslationValue] is the number of the enumeration value. *)
Record VerseResult := {
  key : VerseKey;
  topTranslationValue : Z;
  textList : list string;
  highlightsList : list string;
}.

#[global] Instance VerseKey_eq_dec : EqDecision VerseKey.
Proof. solve_decision. Defined.

#[global] Instance VerseResult_eq_dec : EqDecision VerseResult.
Proof. solve_decision. Defined.

(** Modelled from the spec: [item.getText(idx)], the text of the
    translation numbered [idx], as the accessor of a repeated field reads
    it ([IndexOutOfBoundsException] when the result has no such text). *)
Definition getText (item : VerseResult) (idx : Z) : Result string :=
  get (textList item) idx.

Section Views.
Context {platform : AndroidPlatform} {engine : RegexEngine}.

(** *** Highlighting (lines 169-187) *)

(** The replacement the lambda of lines 178-183 builds for one match. *)
Definition highlightMatch (context : Context) (value : string) : string :=
  "<b><font color='"
    +:+ Int_toString (getColor context R_color_ibTextHighlight)
    +:+ "' >" +:+ value +:+ "</font></b>".

(** The operation folded over [item.highlightsList]. *)
Definition highlightWord (context : Context) (text word : string) : Result string :=
  re ← toRegex word IGNORE_CASE;
  mret (replace re text (highlightMatch context)).

(** [getHighlightedText(context, item, idx)].  The initial value
    [item.getText(idx)] is evaluated before the fold starts. *)
Definition getHighlightedText (context : Context) (item : VerseResult) (idx : Z)
  : Result Spanned :=
  initial ← getText item idx;
  html ← fold (highlightsList item) initial (highlightWord context);
  mret (fromHtml html FROM_HTML_MODE_LEGACY).

(** The call with [idx] left out: [idx = item.topTranslationValue]. *)
Definition getHighlightedText_default (context : Context) (item : VerseResult)
  : Result Spanned :=
  getHighlightedText context item (topTranslationValue item).


(** *** Views *)

(** A [CharSequence] shown by a [TextView]: a plain string or styled text. *)
Inductive CharSequence :=
| Str (s : string)
| Span (s : Spanned).

Record TextView := {
  tv_context : Context;
  tv_text : CharSequence;
}.

Record LayoutParams := {
  lp_width : Z;
  lp_height : Z;
  lp_margins : Z * Z * Z * Z;
}.

(** The listener of lines 156-165, as the values its lambda closes over:
    [item] and the loop variable [t].  The two objects it closes over,
    [holder] and [btn], are the holder the listener runs on and that
    holder's child number [t]: a child never leaves its holder, so its
    position identifies it. *)
Record OnClickListener := {
  listener_item : VerseResult;
  listener_t : Z;
}.

#[global] Instance OnClickListener_eq_dec : EqDecision OnClickListener.
Proof. solve_decision. Defined.

Record Button := {
  btn_context : Context;
  btn_text : CharSequence;
  btn_textAppearance : Z;
  btn_background : option Drawable;
  btn_minWidth : Z;
  btn_minimumWidth : Z;
  btn_minHeight : Z;
  btn_minimumHeight : Z;
  btn_padding : Z * Z * Z * Z;
  btn_layoutParams : option LayoutParams;
  btn_tags : gmap Z Z;
  btn_onClickListener : option OnClickListener;
}.

(** A child of a [ViewGroup]: a [Button], or a view of another class. *)
Inductive View :=
| ViewButton (b : Button)
| ViewOther (v : TextView).

Record LinearLayout := {
  children : list View;
}.

(** [class VerseResultViewHolder] (lines 120-124): the three views of the
    item view that [findViewById] returns. *)
Record VerseResultViewHolder := {
  verseTitle : TextView;
  verseText : TextView;
  translationsHolder : LinearLayout;
}.

(** The item view a layout inflates to, by the ids the code looks up. *)
Record ItemView := {
  view_context : Context;
  view_verse_title : TextView;
  view_verse_text : TextView;
  view_translations : LinearLayout;
}.

Definition newViewHolder (itemView : ItemView) : VerseResultViewHolder :=
  {| verseTitle := view_verse_title itemView;
     verseText := view_verse_text itemView;
     translationsHolder := view_translations itemView |}.

(** **** Property setters *)

Definition setText (text : CharSequence) (v : TextView) : TextView :=
  {| tv_context := tv_context v; tv_text := text |}.

Definition Button_setText (text : CharSequence) (b : Button) : Button :=
  let 'Build_Button c _ a bg w mw h mh p lp tg l := b in
  Build_Button c text a bg w mw h mh p lp tg l.

(** [setTextAppearance(resId)] and the deprecated
    [setTextAppearance(context, resId)] apply the same style. *)
Definition setTextAppearance (resId : Z) (b : Button) : Button :=
  let 'Build_Button c t _ bg w mw h mh p lp tg l := b in
  Build_Button c t resId bg w mw h mh p lp tg l.

Definition setTextAppearance_context (context : Context) (resId : Z) (b : Button)
  : Button :=
  let 'Build_Button c t _ bg w mw h mh p lp tg l := b in
  Build_Button c t resId bg w mw h mh p lp tg l.

Definition setBackground (background : option Drawable) (b : Button) : Button :=
  let 'Build_Button c t a _ w mw h mh p lp tg l := b in
  Build_Button c t a background w mw h mh p lp tg l.

Definition setMinWidth (minWidth : Z) (b : Button) : Button :=
  let 'Build_Button c t a bg _ mw h mh p lp tg l := b in
  Build_Button c t a bg minWidth mw h mh p lp tg l.

Definition setMinimumWidth (minimumWidth : Z) (b : Button) : Button :=
  let 'Build_Button c t a bg w _ h mh p lp tg l := b in
  Build_Button c t a bg w minimumWidth h mh p lp tg l.

Definition setMinHeight (minHeight : Z) (b : Button) : Button :=
  let 'Build_Button c t a bg w mw _ mh p lp tg l := b in
  Build_Button c t a bg w mw minHeight mh p lp tg l.

Definition setMinimumHeight (minimumHeight : Z) (b : Button) : Button :=
  let 'Build_Button c t a bg w mw h _ p lp tg l := b in
  Build_Button c t a bg w mw h minimumHeight p lp tg l.

Definition setPadding (left top right bottom : Z) (b : Button) : Button :=
  let 'Build_Button c t a bg w mw h mh _ lp tg l := b in
  Build_Button c t a bg w mw h mh (left, top, right, bottom) lp tg l.

Definition setLayoutParams (params : LayoutParams) (b : Button) : Button :=
  let 'Build_Button c t a bg w mw h mh p _ tg l := b in
  Build_Button c t a bg w mw h mh p (Some params) tg l.

Definition setTag (key : Z) (tag : Z) (b : Button) : Button :=
  let 'Build_Button c t a bg w mw h mh p lp tg l := b in
  Build_Button c t a bg w mw h mh p lp (<[key := tag]> tg) l.

Definition getTag (key : Z) (b : Button) : option Z := btn_tags b !! key.

Definition setOnClickListener (l : OnClickListener) (b : Button) : Button :=
  let 'Build_Button c t a bg w mw h mh p lp tg _ := b in
  Build_Button c t a bg w mw h mh p lp tg (Some l).

(** [Button(context)] *)
Definition newButton (context : Context) : Button :=
  {| btn_context := context;
     btn_text := Str "";
     btn_textAppearance := themeTextAppearance;
     btn_background := Some themeButtonBackground;
     btn_minWidth := themeButtonMinWidth;
     btn_minimumWidth := themeButtonMinWidth;
     btn_minHeight := themeButtonMinHeight;
     btn_minimumHeight := themeButtonMinHeight;
     btn_padding := themeButtonPadding;
     btn_layoutParams := None;
     btn_tags := ∅;
     btn_onClickListener := None |}.

(** [LinearLayout.LayoutParams(width, height)] and [setMargins] *)
Definition newLayoutParams (width height : Z) : LayoutParams :=
  {| lp_width := width; lp_height := height; lp_margins := (0, 0, 0, 0) |}.

Definition setMargins (left top right bottom : Z) (p : LayoutParams) : LayoutParams :=
  {| lp_width := lp_width p; lp_height := lp_height p;
     lp_margins := (left, top, right, bottom) |}.

(** **** View groups *)

Definition childCount (g : LinearLayout) : Z := Z.of_nat (length (children g)).

(** [getChildAt(index)]: [null] outside the children. *)
Definition getChildAt (index : Z) (g : LinearLayout) : option View :=
  if bool_decide (0 <= index) then children g !! Z.to_nat index else None.

Definition addView (child : View) (g : LinearLayout) : LinearLayout :=
  {| children := children g ++ [child] |}.

(** [v as Button] *)
Definition asButton (v : option View) : Result Button :=
  match v with
  | Some (ViewButton b) => Ok b
  | Some (ViewOther _) => Throw ClassCastException
  | None => Throw NullPointerException
  end.

(** A write through a reference to the [Button] that is child number
    [index]: the child changes in place. *)
Definition updateButton (index : Z) (f : Button -> Button) (g : LinearLayout)
  : LinearLayout :=
  if bool_decide (0 <= index) then
    {| children :=
         alter (fun v => match v with
                         | ViewButton b => ViewButton (f b)
                         | ViewOther o => ViewOther o
                         end) (Z.to_nat index) (children g) |}
  else g.

(** **** Writes to the views of a holder *)

Definition set_verseTitle_text (text : CharSequence) (holder : VerseResultViewHolder)
  : VerseResultViewHolder :=
  {| verseTitle := setText text (verseTitle holder);
     verseText := verseText holder;
     translationsHolder := translationsHolder holder |}.

Definition set_verseText_text (text : CharSequence) (holder : VerseResultViewHolder)
  : VerseResultViewHolder :=
  {| verseTitle := verseTitle holder;
     verseText := setText text (verseText holder);
     translationsHolder := translationsHolder holder |}.

Definition update_translationsHolder (f : LinearLayout -> LinearLayout)
    (holder : VerseResultViewHolder) : VerseResultViewHolder :=
  {| verseTitle := verseTitle holder;
     verseText := verseText holder;
     translationsHolder := f (translationsHolder holder) |}.

(** *** The adapter (lines 126-224) *)

(** What the adapter tells its observers. *)
Inductive AdapterEvent := DataSetChanged.

Record VerseResultAdapter := {
  data : list VerseResult;
  notified : list AdapterEvent;
}.

(** [VerseResultAdapter()]: [data] starts as [listOf()]. *)
Definition newAdapter : VerseResultAdapter :=
  {| data := []; notified := [] |}.

Definition notifyDataSetChanged (a : VerseResultAdapter) : VerseResultAdapter :=
  {| data := data a; notified := notified a ++ [DataSetChanged] |}.

(** The setter of [data] (lines 128-131). *)
Definition set_data (value : list VerseResult) (a : VerseResultAdapter)
  : VerseResultAdapter :=
  notifyDataSetChanged {| data := value; notified := notified a |}.

(** [getItemCount()] (line 133) *)
Definition getItemCount (a : VerseResultAdapter) : Z := Z.of_nat (length (data a)).

(** [setButtonStyle(btn, style)] (lines 217-223), as the change it makes
    to the button. *)
Definition setButtonStyle (style : Z) (btn : Button) : Button :=
  if bool_decide (SDK_INT < 23) then
    setTextAppearance_context (btn_context btn) style btn
  else
    setTextAppearance style btn.

(** The body of the click listener (lines 157-164), run on the holder it
    closes over. *)
Definition onClick (l : OnClickListener) : M VerseResultViewHolder () :=
  let item := listener_item l in
  let t := listener_t l in
  context ← gets (fun holder => tv_context (verseText holder));
  text ← lift (getHighlightedText context item t);
  _ ← modify (set_verseText_text (Span text));
  n ← gets (fun holder => childCount (translationsHolder holder));
  _ ← forEach (until 0 n) (fun t =>
        child ← gets (fun holder => getChildAt t (translationsHolder holder));
        _ ← lift (asButton child);
        modify (update_translationsHolder
                  (updateButton t (setButtonStyle R_style_ibButton))));
  modify (update_translationsHolder
            (updateButton t (setButtonStyle R_style_ibButtonBold))).

(** [onBindViewHolder(holder, position)] (lines 135-167) *)
Definition onBindViewHolder (a : VerseResultAdapter) (position : Z)
  : M VerseResultViewHolder () :=
  item ← lift (get (data a) position);
  _ ← modify (set_verseTitle_text
        (Str (getBookName (book (key item)) +:+ " "
              +:+ Int_toString (chapter (key item)) +:+ ":"
              +:+ Int_toString (verse (key item)))));
  context ← gets (fun holder => tv_context (verseText holder));
  text ← lift (getHighlightedText_default context item);
  _ ← modify (set_verseText_text (Span text));
  n ← gets (fun holder => childCount (translationsHolder holder));
  _ ← forEach (until 0 n) (fun t =>
        child ← gets (fun holder => getChildAt t (translationsHolder holder));
        _ ← lift (asButton child);
        modify (update_translationsHolder
                  (updateButton t
                     (setButtonStyle
                        (if bool_decide (t = topTranslationValue item)
                         then R_style_ibButtonBold
                         else R_style_ibButton)))));
  n ← gets (fun holder => childCount (translationsHolder holder));
  forEach (until 0 n) (fun t =>
    child ← gets (fun holder => getChildAt t (translationsHolder holder));
    _ ← lift (asButton child);
    modify (update_translationsHolder
              (updateButton t
                 (setOnClickListener {| listener_item := item; listener_t := t |})))).

(** A click on child number [t] of a holder, as the framework delivers it:
    the child's listener runs, if it has one. *)
Definition performClick (t : Z) : M VerseResultViewHolder () :=
  child ← gets (fun holder => getChildAt t (translationsHolder holder));
  match child with
  | Some (ViewButton btn) =>
      match btn_onClickListener btn with
      | Some l => onClick l
      | None => mret ()
      end
  | _ => mret ()
  end.

(** What a loop over the children amounts to when its body writes [f t]
    to child number [t]: every button changes in place. *)
Definition updateButtons (f : Z -> Button -> Button) (g : LinearLayout)
  : LinearLayout :=
  {| children :=
       imap (fun t v => match v with
                        | ViewButton b => ViewButton (f (Z.of_nat t) b)
                        | ViewOther o => ViewOther o
                        end) (children g) |}.

(** *** Conditions on a holder *)

Definition isButton (v : View) : bool :=
  match v with
  | ViewButton _ => true
  | ViewOther _ => false
  end.

(** Every child of the translations holder is a [Button]. *)
Definition allButtons (holder : VerseResultViewHolder) : bool :=
  forallb isButton (children (translationsHolder holder)).

Definition clickListenerOf (v : View) : option OnClickListener :=
  match v with
  | ViewButton b => btn_onClickListener b
  | ViewOther _ => None
  end.

Definition textAppearanceOf (v : View) : option Z :=
  match v with
  | ViewButton b => Some (btn_textAppearance b)
  | ViewOther _ => None
  end.

(** [boundTo item holder]: the holder is as [onBindViewHolder] leaves its
    buttons for [item], whatever their styles: every child is a [Button],
    and child number [t] carries the listener made for [item] and [t]. *)
Definition boundTo (item : VerseResult) (holder : VerseResultViewHolder) : bool :=
  allButtons holder
  && bool_decide
       (map clickListenerOf (children (translationsHolder holder))
        = imap (fun t _ => Some {| listener_item := item; listener_t := Z.of_nat t |})
               (children (translationsHolder holder))).

(** *** Highlighting, as the specification words it

    The raw text of the translation; then, for each highlight word in
    order, every case-insensitive match of the word replaced by the matched
    text wrapped in bold, coloured markup; then the result parsed as HTML
    in legacy mode. *)

Definition spec_wrap (color : string) (matched : string) : string :=
  "<b><font color='" +:+ color +:+ "' >" +:+ matched +:+ "</font></b>".

Fixpoint spec_replace_matches (color : string) (pieces : list Piece) : string :=
  match pieces with
  | [] => ""
  | Kept s :: pieces' => s +:+ spec_replace_matches color pieces'
  | Match matched :: pieces' =>
      spec_wrap color matched +:+ spec_replace_matches color pieces'
  end.

Fixpoint spec_rewrite (color : string) (words : list string) (text : string)
  : Result string :=
  match words with
  | [] => Ok text
  | word :: words' =>
      match toRegex word IGNORE_CASE with
      | Ok re => spec_rewrite color words' (spec_replace_matches color (findAll re text))
      | Throw e => Throw e
      end
  end.

Definition spec_highlighted (context : Context) (item : VerseResult) (idx : Z)
  : Result Spanned :=
  match getText item idx with
  | Ok raw =>
      match spec_rewrite (Int_toString (getColor context R_color_ibTextHighlight))
                         (highlightsList item) raw with
      | Ok html => Ok (fromHtml html FROM_HTML_MODE_LEGACY)
      | Throw e => Throw e
      end
  | Throw e => Throw e
  end.

(** The button the loop of lines 194-212 builds for translation [t]. *)
Definition translationButton (context : Context) (t : Z) : Button :=
  let btn := newButton context in
  let btn := Button_setText (Str (getTranslationLabel t)) btn in
  let btn := setButtonStyle R_style_ibButton btn in
  let btn := setBackground None btn in
  let btn := setMinWidth 0 btn in
  let btn := setMinimumWidth 0 btn in
  let btn := setMinHeight 0 btn in
  let btn := setMinimumHeight 0 btn in
  let btn := setPadding 0 0 0 0 btn in
  let marginParams := newLayoutParams WRAP_CONTENT WRAP_CONTENT in
  let marginParams := setMargins 0 0 10 0 marginParams in
  let btn := setLayoutParams marginParams btn in
  setTag R_string_translation_tag t btn.

(** [layoutInflater.inflate(resource, parent, false)]: the layout file is
    not part of the source, so the item view it inflates to is a
    parameter. *)
Variable inflate : Z -> Context -> ItemView.

(** [onCreateViewHolder(parent, viewType)] (lines 189-215), given the
    context of [parent]. *)
Definition onCreateViewHolder (parent_context : Context) (viewType : Z)
  : VerseResultViewHolder :=
  let view := inflate R_layout_verse_result_view parent_context in
  let translationsHolder :=
    foldl (fun translationsHolder t =>
             addView (ViewButton (translationButton (view_context view) t))
                     translationsHolder)
          (view_translations view) (until 0 TOTAL_VALUE) in
  newViewHolder
    {| view_context := view_context view;
       view_verse_title := view_verse_title view;
       view_verse_text := view_verse_text view;
       view_translations := translationsHolder |}.

End Views.

End Adapter.

(** ** The search header (TypeScript, lines 1-99) *)

Module Header.

Section Component.

(** DOM nodes (compared by identity), the actions of the store and the
    search state the hooks read.  [doSearch], [doReset], [useQuery] and
    [useDirty] come from [../state/search], [theme.background] from the
    theme provider and [i18n] from the translation macro; none of them is
    defined in the file. *)
Context {Node Action SearchState : Type} `{EqDecision Node}.
Variable doSearch : string -> Action.
Variable doReset : Action.
Variable useQuery : SearchState -> string.
Variable useDirty : SearchState -> bool.
Variable theme_background : string.
Variable i18n : string -> string.

(** A [KeyboardEvent], by the two properties the handlers read. *)
Record KeyboardEvent := {
  key : string;
  target : option Node;
}.

(** A [React.FormEvent<HTMLInputElement>], by [e.currentTarget.value]. *)
Record FormEvent := {
  currentTarget_value : string;
}.

(** What a handler does, in the order it does it: [e.preventDefault()],
    [node.focus()] and [dispatch(action)]. *)
Inductive Effect :=
| PreventDefault
| Focus (node : Node)
| Dispatch (action : Action).

(** [getBackgroundColor] (line 10) *)
Definition getBackgroundColor (background : string) : string := background.

(** The declarations of the styled [Root] (lines 12-23); [position] is
    [null] when the header is not dirty. *)
Record RootStyle := {
  background : string;
  width : string;
  display : string;
  flex_direction : string;
  align_items : string;
  justify_content : string;
  padding_top : string;
  padding_bottom : string;
  position : option string;
  z_index : Z;
}.

Definition Root (dirty : bool) : RootStyle :=
  {| background := getBackgroundColor theme_background;
     width := if dirty then "960px" else "40%";
     display := "flex";
     flex_direction := if dirty then "row" else "column";
     align_items := "center";
     justify_content := "center";
     padding_top := if dirty then "15px" else "0";
     padding_bottom := if dirty then "15px" else "35vh";
     position := if dirty then Some "fixed" else None;
     z_index := 1 |}.

(** [handleChange] (lines 30-35) *)
Definition handleChange (e : FormEvent) : list Effect :=
  [Dispatch (doSearch (currentTarget_value e))].

(** The keyup handler of the first effect (lines 38-47); [inputRef.current]
    is read when the event arrives. *)
Definition slashHandler (inputRef_current : option Node) (e : KeyboardEvent)
  : list Effect :=
  match inputRef_current with
  | None => []
  | Some input =>
      if bool_decide (target e ≠ Some input) && String.eqb (key e) "/"
      then [PreventDefault; Focus input]
      else []
  end.

(** The keyup handler of the second effect (lines 57-61) *)
Definition escapeHandler (e : KeyboardEvent) : list Effect :=
  if String.eqb (key e) "Escape" then [Dispatch doReset] else [].

(** The props of the [Input] element (lines 83-94) *)
Record InputProps := {
  input_width : string;
  input_margin_top : string;
  input_margin_left : string;
  placeholder : string;
  onChange : FormEvent -> list Effect;
  value : string;
  autoFocus : bool;
}.

(** What the component renders (lines 72-98) *)
Record Rendered := {
  root : RootStyle;
  logo_width : string;
  input : InputProps;
}.

Definition render (state : SearchState) : Rendered :=
  let query := useQuery state in
  let dirty := useDirty state in
  {| root := Root dirty;
     logo_width := if dirty then "200px" else "50%";
     input :=
       {| input_width := "100%";
          input_margin_top := if dirty then "none" else "30px";
          input_margin_left := if dirty then "15px" else "none";
          placeholder := i18n "Search...";
          onChange := handleChange;
          value := query;
          autoFocus := true |} |}.

(** *** The listeners on [document] *)

(** The two handlers, as the listeners the effects register. *)
Inductive Listener := SlashListener | EscapeListener.

#[global] Instance Listener_eq_dec : EqDecision Listener.
Proof. solve_decision. Defined.

(** The event listener list of [document]: event type and listener, in
    the order of registration. *)
Definition Document : Type := list (string * Listener).

(** [addEventListener]: a listener already registered for the type is not
    registered again. *)
Definition addEventListener (type : string) (l : Listener) (document : Document)
  : Document :=
  if bool_decide ((type, l) ∈ document) then document else document ++ [(type, l)].

Definition removeEventListener (type : string) (l : Listener) (document : Document)
  : Document :=
  filter (fun entry => entry ≠ (type, l)) document.

(** The effects of lines 37-68 when the component mounts, and their
    clean-ups when it unmounts. *)
Definition mount (document : Document) : Document :=
  addEventListener "keyup" EscapeListener
    (addEventListener "keyup" SlashListener document).

Definition unmount (document : Document) : Document :=
  removeEventListener "keyup" EscapeListener
    (removeEventListener "keyup" SlashListener document).

Definition handle (inputRef_current : option Node) (l : Listener)
    (e : KeyboardEvent) : list Effect :=
  match l with
  | SlashListener => slashHandler inputRef_current e
  | EscapeListener => escapeHandler e
  end.

(** An event of the given type reaching [document]: the listeners of that
    type run in the order of registration. *)
Definition dispatchEvent (document : Document) (inputRef_current : option Node)
    (type : string) (e : KeyboardEvent) : list Effect :=
  concat (map (fun entry => handle inputRef_current entry.2 e)
              (filter (fun entry => entry.1 = type) document)).

End Component.

End Header.

(** ** Instances for the worked examples *)

Module Fixtures.

Import Adapter.

(** *** A regular expression engine for literal words

    It compiles a nonempty word of letters and digits to itself, refuses
    every other pattern as malformed, and matches the word wherever it
    occurs, ignoring the case of ASCII letters. *)

Definition lower (c : Ascii.ascii) : Ascii.ascii :=
  let n := Ascii.nat_of_ascii c in
  if bool_decide (65 <= n <= 90)%nat then Ascii.ascii_of_nat (n + 32) else c.

Definition alphanumeric (c : Ascii.ascii) : bool :=
  let n := Ascii.nat_of_ascii (lower c) in
  bool_decide (97 <= n <= 122)%nat || bool_decide (48 <= n <= 57)%nat.

Fixpoint all_alphanumeric (s : string) : bool :=
  match s with
  | EmptyString => true
  | String c s' => alphanumeric c && all_alphanumeric s'
  end.

(** [starts_with word s]: [s] starts with [word], up to case. *)
Fixpoint starts_with (word s : string) : bool :=
  match word, s with
  | EmptyString, _ => true
  | String a word', String b s' =>
      bool_decide (lower a = lower b) && starts_with word' s'
  | String _ _, EmptyString => false
  end.

Definition skip (n : nat) (s : string) : string :=
  String.substring n (String.length s - n) s.

Definition flush (kept : string) : list Piece :=
  match kept with
  | EmptyString => []
  | _ => [Kept kept]
  end.

(** [scan fuel word s kept]: the pieces of [kept ++ s], where [kept] has
    no match; [fuel] bounds the number of steps by the length of [s]. *)
Fixpoint scan (fuel : nat) (word s kept : string) : list Piece :=
  match fuel, s with
  | S fuel', String c s' =>
      if starts_with word s then
        flush kept
          ++ Match (String.substring 0 (String.length word) s)
          :: scan fuel' word (skip (String.length word) s) ""
      else scan fuel' word s' (kept +:+ String c "")
  | _, _ => flush kept
  end.

#[local] Instance literalEngine : RegexEngine := {|
  Regex := string;
  toRegex word _ :=
    match word with
    | EmptyString => Throw PatternSyntaxException
    | _ => if all_alphanumeric word then Ok word else Throw PatternSyntaxException
    end;
  findAll word input := scan (String.length input) word input "";
|}.

(** *** A device *)

#[local] Instance device : AndroidPlatform := {|
  Context := ();
  Spanned := string;
  Drawable := ();
  fromHtml source _ := source;
  getColor _ _ := -65536;
  SDK_INT := 29;
  R_color_ibTextHighlight := 2131034200;
  R_style_ibButton := 2131689700;
  R_style_ibButtonBold := 2131689701;
  R_string_translation_tag := 2131623990;
  R_layout_verse_result_view := 2131427400;
  getBookName b := if bool_decide (b = 0) then "Genesis" else "John";
  getTranslationLabel t :=
    default "?" (["KJV"; "NET"; "BSB"] !! Z.to_nat t);
  TOTAL_VALUE := 3;
  themeTextAppearance := 16974258;
  themeButtonBackground := ();
  themeButtonMinWidth := 88;
  themeButtonMinHeight := 48;
  themeButtonPadding := (12, 4, 12, 4);
|}.

(** The item view of the layout: two empty text views and a row without
    children. *)
Definition inflated (resource : Z) (context : ()) : ItemView :=
  {| view_context := context;
     view_verse_title := {| tv_context := context; tv_text := Str "" |};
     view_verse_text := {| tv_context := context; tv_text := Str "" |};
     view_translations := {| children := [] |} |}.

(** Genesis 1:1 in three translations, found by a search for [god]. *)
Definition genesis_1_1 : VerseResult :=
  {| key := {| book := 0; chapter := 1; verse := 1 |};
     topTranslationValue := 1;
     textList :=
       [ "In the beginning God created the heaven and the earth.";
         "In the beginning God created the heavens and the earth.";
         "In the beginning God created the heavens and the earth." ];
     highlightsList := ["god"] |}.

(** John 3:16, found by a search for [god loved]. *)
Definition john_3_16 : VerseResult :=
  {| key := {| book := 42; chapter := 3; verse := 16 |};
     topTranslationValue := 0;
     textList :=
       [ "For God so loved the world";
         "For this is the way God loved the world";
         "For God so loved the world" ];
     highlightsList := ["god"; "loved"] |}.

Definition adapter : VerseResultAdapter :=
  set_data [genesis_1_1; john_3_16] newAdapter.

(** A holder as [onCreateViewHolder] makes it on the device. *)
Definition fresh_holder : VerseResultViewHolder :=
  onCreateViewHolder inflated () 0.

(** A holder whose row holds a text view where a button should be. *)
Definition odd_holder : VerseResultViewHolder :=
  update_translationsHolder
    (addView (ViewOther {| tv_context := (); tv_text := Str "label" |}))
    fresh_holder.

(** The fresh holder, bound to the second result. *)
Definition bound_holder : VerseResultViewHolder :=
  (onBindViewHolder adapter 1 fresh_holder).2.

(** A result whose second highlight word is no pattern the engine takes. *)
Definition malformed_result : VerseResult :=
  {| key := {| book := 0; chapter := 1; verse := 3 |};
     topTranslationValue := 0;
     textList := ["And God said"; "Then God said"; "And God said"];
     highlightsList := ["god"; "("; "said"] |}.

(** A result that has text for two of the three translations only. *)
Definition short_result : VerseResult :=
  {| key := {| book := 42; chapter := 11; verse := 35 |};
     topTranslationValue := 0;
     textList := ["Jesus wept."; "Jesus wept."];
     highlightsList := ["wept"] |}.

Definition more_results : VerseResultAdapter :=
  set_data [malformed_result; short_result] adapter.

(** The fresh holder, bound to the first result of [adapter] and to the
    short result. *)
Definition genesis_holder : VerseResultViewHolder :=
  (onBindViewHolder adapter 0 fresh_holder).2.

Definition short_holder : VerseResultViewHolder :=
  (onBindViewHolder more_results 1 fresh_holder).2.

(** *** A page *)

Inductive Action :=
| Search (query : string)
| Reset.

Record SearchState := {
  state_query : string;
  state_dirty : bool;
}.

(** The search input is node [1]; node [2] is the rest of the page. *)
Definition searchInput : nat := 1.
Definition pageBody : nat := 2.

(** A [/] typed into the search input itself, a [/] released over the rest
    of the page, and an [Escape] released in the search input. *)
Definition slash_in_input : Header.KeyboardEvent :=
  {| Header.key := "/"; Header.target := Some searchInput |}.

Definition slash_on_page : Header.KeyboardEvent :=
  {| Header.key := "/"; Header.target := Some pageBody |}.

Definition escape_in_input : Header.KeyboardEvent :=
  {| Header.key := "Escape"; Header.target := Some searchInput |}.

(** The page with the header mounted and nothing else listening. *)
Definition page : Header.Document := Header.mount [].

(** A document on which a listener for another event type is registered. *)
Definition busy_document : Header.Document := [("keydown", Header.EscapeListener)].


End Fixtures.

(** * Properties *)

(** ** Kotlin: folds and loops *)

Section KotlinFacts.

Lemma foldl_Throw {A R} (operation : R -> A -> Result R) (l : list A) e :
  foldl (fun acc element => accumulator ← acc; operation accumulator element)
        (Throw e) l = Throw e.
Proof. induction l as [|x l IH]; simpl; [reflexivity | exact IH]. Qed.

(** [fold] unrolls from the left, and stops at the first throw. *)
Lemma fold_nil {A R} (initial : R) (operation : R -> A -> Result R) :
  fold [] initial operation = Ok initial.
Proof. reflexivity. Qed.

Lemma fold_cons {A R} (x : A) l (initial : R) (operation : R -> A -> Result R) :
  fold (x :: l) initial operation =
  match operation initial x with
  | Ok r => fold l r operation
  | Throw e => Throw e
  end.
Proof.
  unfold fold. simpl. unfold mbind at 2. simpl.
  destruct (operation initial x) as [r|e]; [reflexivity | apply foldl_Throw].
Qed.

Lemma get_Ok {A} (l : list A) index x :
  get l index = Ok x <-> 0 <= index /\ l !! Z.to_nat index = Some x.
Proof.
  unfold get. case_bool_decide as Hr.
  - destruct (l !! Z.to_nat index) eqn:E; split.
    + intros [= ->]. split; [lia | reflexivity].
    + intros [_ [= ->]]. reflexivity.
    + discriminate.
    + intros [_ [=]].
  - split; [discriminate |]. intros [H0 Hl].
    apply lookup_lt_Some in Hl. lia.
Qed.

Lemma get_in_range {A} (l : list A) index :
  0 <= index < Z.of_nat (length l) -> exists x, get l index = Ok x.
Proof.
  intros Hr. destruct (lookup_lt_is_Some_2 l (Z.to_nat index)) as [x Hx]; [lia |].
  exists x. apply get_Ok. split; [lia | exact Hx].
Qed.

Lemma get_out_of_range {A} (l : list A) index :
  ~ 0 <= index < Z.of_nat (length l) -> get l index = Throw IndexOutOfBoundsException.
Proof. intros Hr. unfold get. rewrite bool_decide_eq_false_2; [reflexivity | exact Hr]. Qed.

End KotlinFacts.

(** ** Highlighting *)

Section Highlighting.
Import Adapter.
Context {platform : AndroidPlatform} {engine : RegexEngine}.

Lemma highlightMatch_spec_wrap context value :
  highlightMatch context value =
  spec_wrap (Int_toString (getColor context R_color_ibTextHighlight)) value.
Proof. reflexivity. Qed.

Lemma replace_spec_replace_matches context re text :
  replace re text (highlightMatch context) =
  spec_replace_matches (Int_toString (getColor context R_color_ibTextHighlight))
                       (findAll re text).
Proof.
  unfold replace. induction (findAll re text) as [|p ps IH]; simpl; [reflexivity |].
  destruct p as [s|value]; rewrite IH; reflexivity.
Qed.

Lemma fold_highlightWord_spec_rewrite context words text :
  fold words text (highlightWord context) =
  spec_rewrite (Int_toString (getColor context R_color_ibTextHighlight)) words text.
Proof.
  revert text. induction words as [|word words IH]; intros text.
  - reflexivity.
  - rewrite fold_cons. simpl. unfold highlightWord.
    destruct (toRegex word IGNORE_CASE) as [re|e]; simpl; [| reflexivity].
    rewrite IH, replace_spec_replace_matches. reflexivity.
Qed.

(** C1: for every verse result [item] and translation index [idx], the
    text [getHighlightedText] computes is the raw text [item.getText(idx)],
    rewritten once per highlight word, in the order of the list, with every
    case-insensitive match of the word replaced by the matched text wrapped
    in [<b><font color='...' >...</font></b>], and then parsed as HTML in
    legacy mode.  A throw of [getText] or of the compilation of a word is
    the outcome on both sides. *)
Theorem C1_getHighlightedText_rewrites_then_renders
    (context : Context) (item : VerseResult) (idx : Z) :
  getHighlightedText context item idx = spec_highlighted context item idx.
Proof.
  unfold getHighlightedText, spec_highlighted.
  destruct (getText item idx) as [raw|e]; simpl; [| reflexivity].
  rewrite fold_highlightWord_spec_rewrite.
  destruct (spec_rewrite _ (highlightsList item) raw) as [html|e]; reflexivity.
Qed.

(** Without highlight words the raw text is rendered as it is. *)
Lemma getHighlightedText_no_highlights context item idx raw :
  highlightsList item = [] ->
  getText item idx = Ok raw ->
  getHighlightedText context item idx = Ok (fromHtml raw FROM_HTML_MODE_LEGACY).
Proof.
  intros Hw Hr. unfold getHighlightedText. rewrite Hr, Hw. reflexivity.
Qed.

End Highlighting.

Section HighlightingExamples.
Import Adapter Fixtures.
#[local] Existing Instance device.
#[local] Existing Instance literalEngine.

Example highlight_genesis :
  getHighlightedText () genesis_1_1 1 =
  Ok "In the beginning <b><font color='-65536' >God</font></b> created the heavens and the earth.".
Proof. vm_compute. reflexivity. Qed.

(** The second word is matched in the text the first word left. *)
Example highlight_john :
  getHighlightedText () john_3_16 1 =
  Ok "For this is the way <b><font color='-65536' >God</font></b> <b><font color='-65536' >loved</font></b> the world".
Proof. vm_compute. reflexivity. Qed.

Example highlight_no_such_translation :
  getHighlightedText () john_3_16 3 = Throw IndexOutOfBoundsException.
Proof. vm_compute. reflexivity. Qed.

End HighlightingExamples.

(** ** The adapter: loops over the children, binding and clicks *)

Section AdapterFacts.
Import Adapter.
Context {platform : AndroidPlatform} {engine : RegexEngine}.

Lemma getChildAt_lookup index g v :
  getChildAt index g = Some v <-> 0 <= index /\ children g !! Z.to_nat index = Some v.
Proof.
  unfold getChildAt. case_bool_decide; split.
  - intros Hl. split; [assumption | exact Hl].
  - intros [_ Hl]. exact Hl.
  - discriminate.
  - intros [H0 _]. contradiction.
Qed.

Lemma getChildAt_of_nat (i : nat) g : getChildAt (Z.of_nat i) g = children g !! i.
Proof.
  unfold getChildAt. rewrite bool_decide_eq_true_2 by lia. rewrite Nat2Z.id. reflexivity.
Qed.

Lemma updateButton_of_nat (i : nat) f g :
  updateButton (Z.of_nat i) f g =
  {| children := alter (fun v => match v with
                                 | ViewButton b => ViewButton (f b)
                                 | ViewOther o => ViewOther o
                                 end) i (children g) |}.
Proof.
  unfold updateButton. rewrite bool_decide_eq_true_2 by lia. rewrite Nat2Z.id. reflexivity.
Qed.


Lemma forEach_cons {S A} (x : A) xs (body : A -> M S ()) s :
  forEach (x :: xs) body s =
  match body x s with
  | (Ok _, s') => forEach xs body s'
  | (Throw e, s') => (Throw e, s')
  end.
Proof. reflexivity. Qed.

#[local] Abbreviation childLoopBody f :=
  (fun t =>
     child ← gets (fun holder => getChildAt t (translationsHolder holder));
     _ ← lift (asButton child);
     modify (update_translationsHolder (updateButton t (f t)))) (only parsing).

Lemma loop_body_button (f : Z -> Button -> Button) t holder b :
  getChildAt t (translationsHolder holder) = Some (ViewButton b) ->
  childLoopBody f t holder
  = (Ok (), update_translationsHolder (updateButton t (f t)) holder).
Proof.
  intros Hc. unfold mbind, M_bind, gets, lift, modify. rewrite Hc. reflexivity.
Qed.

Lemma loop_body_other (f : Z -> Button -> Button) t holder o :
  getChildAt t (translationsHolder holder) = Some (ViewOther o) ->
  childLoopBody f t holder = (Throw ClassCastException, holder).
Proof.
  intros Hc. unfold mbind, M_bind, gets, lift, modify. rewrite Hc. reflexivity.
Qed.

Lemma update_translationsHolder_mk f title text g :
  update_translationsHolder f
    {| verseTitle := title; verseText := text; translationsHolder := g |}
  = {| verseTitle := title; verseText := text; translationsHolder := f g |}.
Proof. reflexivity. Qed.

(** One loop over the children of a holder, from child [length prefix] on. *)
Lemma forEach_children_from (f : Z -> Button -> Button) title text suffix : forall prefix,
  forallb isButton suffix = true ->
  forEach (seqZ (Z.of_nat (length prefix)) (Z.of_nat (length suffix)))
    (childLoopBody f)
    {| verseTitle := title; verseText := text;
       translationsHolder := {| children := prefix ++ suffix |} |}
  = (Ok (),
     {| verseTitle := title; verseText := text;
        translationsHolder :=
          {| children :=
               prefix ++ imap (fun i v => match v with
                                          | ViewButton b =>
                                              ViewButton (f (Z.of_nat (length prefix + i)) b)
                                          | ViewOther o => ViewOther o
                                          end) suffix |} |}).
Proof.
  induction suffix as [|v suffix IH]; intros prefix Hall.
  - reflexivity.
  - simpl in Hall. apply andb_prop in Hall as [Hv Hall].
    destruct v as [b|o]; [| discriminate].
    rewrite seqZ_cons by (simpl length; lia).
    rewrite forEach_cons.
    rewrite (loop_body_button f _ _ b).
    2:{ cbn [translationsHolder]. rewrite getChildAt_of_nat. cbn [children].
        apply list_lookup_middle. reflexivity. }
    rewrite update_translationsHolder_mk.
    rewrite updateButton_of_nat. cbn [children].
    replace (length prefix) with (length prefix + 0)%nat at 2 by lia.
    rewrite alter_app_r. cbn [alter list_alter].
    specialize (IH (prefix ++ [ViewButton (f (Z.of_nat (length prefix)) b)]) Hall).
    rewrite length_app in IH. simpl length in IH.
    replace (Z.succ (Z.of_nat (length prefix))) with (Z.of_nat (length prefix + 1)) by lia.
    replace (Z.pred (Z.of_nat (length (ViewButton b :: suffix))))
      with (Z.of_nat (length suffix)) by (simpl length; lia).
    rewrite <- app_assoc in IH. simpl app in IH. rewrite IH.
    rewrite imap_cons. rewrite <- app_assoc. simpl app.
    rewrite Nat.add_0_r.
    do 5 f_equal. apply imap_ext. intros i x _. simpl.
    destruct x; [| reflexivity]. do 3 f_equal. lia.
Qed.

Lemma forEach_children_from_fail (f : Z -> Button -> Button) title text suffix : forall prefix,
  forallb isButton suffix = false ->
  (forEach (seqZ (Z.of_nat (length prefix)) (Z.of_nat (length suffix)))
    (childLoopBody f)
    {| verseTitle := title; verseText := text;
       translationsHolder := {| children := prefix ++ suffix |} |}).1
  = Throw ClassCastException.
Proof.
  induction suffix as [|v suffix IH]; intros prefix Hall.
  - discriminate.
  - rewrite seqZ_cons by (simpl length; lia).
    rewrite forEach_cons.
    destruct v as [b|o].
    + simpl in Hall.
      rewrite (loop_body_button f _ _ b).
      2:{ cbn [translationsHolder]. rewrite getChildAt_of_nat. cbn [children].
          apply list_lookup_middle. reflexivity. }
      rewrite update_translationsHolder_mk.
      rewrite updateButton_of_nat. cbn [children].
      replace (length prefix) with (length prefix + 0)%nat at 2 by lia.
      rewrite alter_app_r. cbn [alter list_alter].
      specialize (IH (prefix ++ [ViewButton (f (Z.of_nat (length prefix)) b)]) Hall).
      rewrite length_app in IH. simpl length in IH.
      replace (Z.succ (Z.of_nat (length prefix))) with (Z.of_nat (length prefix + 1)) by lia.
      replace (Z.pred (Z.of_nat (length (ViewButton b :: suffix))))
        with (Z.of_nat (length suffix)) by (simpl length; lia).
      rewrite <- app_assoc in IH. simpl app in IH. exact IH.
    + rewrite (loop_body_other f _ _ o); [reflexivity |].
      cbn [translationsHolder]. rewrite getChildAt_of_nat. cbn [children].
      apply list_lookup_middle. reflexivity.
Qed.


Lemma forEach_children_ok (f : Z -> Button -> Button) holder :
  allButtons holder = true ->
  forEach (until 0 (childCount (translationsHolder holder))) (childLoopBody f) holder
  = (Ok (), update_translationsHolder (updateButtons f) holder).
Proof.
  destruct holder as [title text [cs]]. unfold allButtons, until, childCount.
  cbn [translationsHolder children]. intros Hall.
  rewrite Z.sub_0_r. exact (forEach_children_from f title text cs [] Hall).
Qed.

Lemma forEach_children_fail (f : Z -> Button -> Button) holder :
  allButtons holder = false ->
  (forEach (until 0 (childCount (translationsHolder holder))) (childLoopBody f) holder).1
  = Throw ClassCastException.
Proof.
  destruct holder as [title text [cs]]. unfold allButtons, until, childCount.
  cbn [translationsHolder children]. intros Hall.
  rewrite Z.sub_0_r. exact (forEach_children_from_fail f title text cs [] Hall).
Qed.

(** Lookups in a row after a loop over it. *)
Lemma updateButtons_lookup f g (i : nat) :
  children (updateButtons f g) !! i =
  (fun v => match v with
            | ViewButton b => ViewButton (f (Z.of_nat i) b)
            | ViewOther o => ViewOther o
            end) <$> children g !! i.
Proof. unfold updateButtons. cbn [children]. apply list_lookup_imap. Qed.

Lemma updateButtons_length f g :
  length (children (updateButtons f g)) = length (children g).
Proof. unfold updateButtons. cbn [children]. apply length_imap. Qed.

Lemma updateButtons_childCount f g : childCount (updateButtons f g) = childCount g.
Proof. unfold childCount. rewrite updateButtons_length. reflexivity. Qed.

Lemma forallb_lookup {A} (p : A -> bool) (l : list A) :
  forallb p l = true <-> forall i x, l !! i = Some x -> p x = true.
Proof.
  rewrite forallb_forall. split.
  - intros Hin i x Hl. apply Hin. apply list_elem_of_In.
    apply list_elem_of_lookup. exists i. exact Hl.
  - intros Hl x Hin. apply list_elem_of_In, list_elem_of_lookup in Hin as [i Hi].
    exact (Hl i x Hi).
Qed.

Lemma updateButtons_allButtons f holder :
  allButtons (update_translationsHolder (updateButtons f) holder) = allButtons holder.
Proof.
  unfold allButtons. cbn [update_translationsHolder translationsHolder].
  unfold updateButtons. cbn [children].
  induction (children (translationsHolder holder)) as [|v cs IH] using rev_ind.
  - reflexivity.
  - rewrite imap_app, !forallb_app, IH. f_equal. simpl. destruct v; reflexivity.
Qed.

Lemma updateButton_lookup t f g (i : nat) :
  children (updateButton t f g) !! i =
  if bool_decide (t = Z.of_nat i)
  then (fun v => match v with
                 | ViewButton b => ViewButton (f b)
                 | ViewOther o => ViewOther o
                 end) <$> children g !! i
  else children g !! i.
Proof.
  unfold updateButton. case_bool_decide as Ht.
  - cbn [children]. rewrite list_lookup_alter.
    destruct (decide (Z.to_nat t = i)) as [<-|Hne].
    + rewrite bool_decide_eq_true_2 by lia. reflexivity.
    + rewrite bool_decide_eq_false_2 by lia. reflexivity.
  - rewrite bool_decide_eq_false_2 by lia. reflexivity.
Qed.

Lemma updateButton_length t f g :
  length (children (updateButton t f g)) = length (children g).
Proof.
  unfold updateButton. case_bool_decide; [| reflexivity].
  cbn [children]. apply length_alter.
Qed.

Lemma setButtonStyle_textAppearance style btn :
  btn_textAppearance (setButtonStyle style btn) = style.
Proof. unfold setButtonStyle. destruct btn. case_bool_decide; reflexivity. Qed.

Lemma setButtonStyle_onClickListener style btn :
  btn_onClickListener (setButtonStyle style btn) = btn_onClickListener btn.
Proof. unfold setButtonStyle. destruct btn. case_bool_decide; reflexivity. Qed.

Lemma setOnClickListener_textAppearance l btn :
  btn_textAppearance (setOnClickListener l btn) = btn_textAppearance btn.
Proof. destruct btn. reflexivity. Qed.

Lemma setOnClickListener_onClickListener l btn :
  btn_onClickListener (setOnClickListener l btn) = Some l.
Proof. destruct btn. reflexivity. Qed.

#[local] Abbreviation titleOf item :=
  (getBookName (book (key item)) +:+ " "
     +:+ Int_toString (chapter (key item)) +:+ ":"
     +:+ Int_toString (verse (key item))) (only parsing).

#[local] Abbreviation styleFor item :=
  (fun t : Z => setButtonStyle (if bool_decide (t = topTranslationValue item)
                                then R_style_ibButtonBold
                                else R_style_ibButton)) (only parsing).

#[local] Abbreviation listenerFor item :=
  (fun t : Z => setOnClickListener {| listener_item := item; listener_t := t |})
  (only parsing).

(** *** [onBindViewHolder], case by case *)

Lemma onBindViewHolder_out_of_range a position holder :
  ~ 0 <= position < getItemCount a ->
  onBindViewHolder a position holder = (Throw IndexOutOfBoundsException, holder).
Proof.
  intros Hr. unfold onBindViewHolder, mbind, M_bind, lift.
  rewrite get_out_of_range by exact Hr. reflexivity.
Qed.

Lemma onBindViewHolder_no_text a position holder item e :
  get (data a) position = Ok item ->
  getHighlightedText (tv_context (verseText holder)) item (topTranslationValue item)
    = Throw e ->
  onBindViewHolder a position holder
  = (Throw e, set_verseTitle_text (Str (titleOf item)) holder).
Proof.
  intros Hitem Htext. unfold onBindViewHolder.
  unfold mbind at 1, M_bind at 1, lift at 1. rewrite Hitem.
  unfold mbind at 1, M_bind at 1, modify at 1.
  unfold mbind at 1, M_bind at 1, gets at 1.
  unfold mbind at 1, M_bind at 1, lift at 1.
  unfold getHighlightedText_default. cbn [set_verseTitle_text verseText].
  rewrite Htext. reflexivity.
Qed.


Lemma onBindViewHolder_not_buttons a position holder item text :
  get (data a) position = Ok item ->
  getHighlightedText (tv_context (verseText holder)) item (topTranslationValue item)
    = Ok text ->
  allButtons holder = false ->
  (onBindViewHolder a position holder).1 = Throw ClassCastException.
Proof.
  intros Hitem Htext Hall. unfold onBindViewHolder.
  unfold mbind at 1, M_bind at 1, lift at 1. rewrite Hitem.
  unfold mbind at 1, M_bind at 1, modify at 1.
  unfold mbind at 1, M_bind at 1, gets at 1.
  unfold mbind at 1, M_bind at 1, lift at 1.
  unfold getHighlightedText_default. cbn [set_verseTitle_text verseText].
  rewrite Htext.
  unfold mbind at 1, M_bind at 1, modify at 1.
  unfold mbind at 1, M_bind at 1, gets at 1.
  unfold mbind at 1, M_bind at 1.
  set (holder1 := set_verseText_text _ _).
  pose proof (forEach_children_fail (styleFor item) holder1 Hall) as Hloop.
  destruct (forEach _ _ holder1) as [[[]|e] s]; simpl in Hloop; [discriminate |].
  simpl. exact Hloop.
Qed.

Lemma onBindViewHolder_ok a position holder item text :
  get (data a) position = Ok item ->
  getHighlightedText (tv_context (verseText holder)) item (topTranslationValue item)
    = Ok text ->
  allButtons holder = true ->
  onBindViewHolder a position holder
  = (Ok (),
     update_translationsHolder (updateButtons (listenerFor item))
       (update_translationsHolder (updateButtons (styleFor item))
          (set_verseText_text (Span text)
             (set_verseTitle_text (Str (titleOf item)) holder)))).
Proof.
  intros Hitem Htext Hall. unfold onBindViewHolder.
  unfold mbind at 1, M_bind at 1, lift at 1. rewrite Hitem.
  unfold mbind at 1, M_bind at 1, modify at 1.
  unfold mbind at 1, M_bind at 1, gets at 1.
  unfold mbind at 1, M_bind at 1, lift at 1.
  unfold getHighlightedText_default. cbn [set_verseTitle_text verseText].
  rewrite Htext.
  unfold mbind at 1, M_bind at 1, modify at 1.
  unfold mbind at 1, M_bind at 1, gets at 1.
  unfold mbind at 1, M_bind at 1.
  set (holder1 := set_verseText_text _ _).
  rewrite (forEach_children_ok (styleFor item) holder1 Hall).
  unfold mbind at 1, M_bind at 1, gets at 1.
  set (holder2 := update_translationsHolder _ holder1).
  assert (allButtons holder2 = true) as Hall2.
  { unfold holder2. rewrite updateButtons_allButtons. exact Hall. }
  rewrite (forEach_children_ok (listenerFor item) holder2 Hall2).
  reflexivity.
Qed.


Lemma onBindViewHolder_Ok_inv a position holder bound :
  onBindViewHolder a position holder = (Ok (), bound) ->
  exists item text,
    get (data a) position = Ok item
    /\ getHighlightedText (tv_context (verseText holder)) item (topTranslationValue item)
       = Ok text
    /\ allButtons holder = true.
Proof.
  intros Hbind.
  destruct (decide (0 <= position < getItemCount a)) as [Hr|Hr].
  2:{ rewrite onBindViewHolder_out_of_range in Hbind by exact Hr. discriminate. }
  destruct (get_in_range (data a) position Hr) as [item Hitem].
  destruct (getHighlightedText (tv_context (verseText holder)) item
              (topTranslationValue item)) as [text|e] eqn:Htext.
  2:{ rewrite (onBindViewHolder_no_text _ _ _ _ _ Hitem Htext) in Hbind. discriminate. }
  destruct (allButtons holder) eqn:Hall.
  - exists item, text. repeat split; assumption.
  - pose proof (onBindViewHolder_not_buttons _ _ _ _ _ Hitem Htext Hall) as Hthrow.
    rewrite Hbind in Hthrow. discriminate.
Qed.

(** *** Holders bound to an item *)

Lemma boundTo_lookup item holder :
  boundTo item holder = true <->
  forall (i : nat) v, children (translationsHolder holder) !! i = Some v ->
    exists b, v = ViewButton b
      /\ btn_onClickListener b = Some {| listener_item := item; listener_t := Z.of_nat i |}.
Proof.
  unfold boundTo, allButtons. rewrite andb_true_iff, bool_decide_eq_true, forallb_lookup.
  set (cs := children (translationsHolder holder)). split.
  - intros [Hall Heq] i v Hv.
    specialize (Hall i v Hv). destruct v as [b|o]; [| discriminate].
    exists b. split; [reflexivity |].
    apply (f_equal (fun l => l !! i)) in Heq.
    rewrite list_lookup_fmap, list_lookup_imap, Hv in Heq. simpl in Heq.
    congruence.
  - intros Hp. split.
    + intros i v Hv. destruct (Hp i v Hv) as (b & -> & _). reflexivity.
    + apply list_eq. intros i. rewrite list_lookup_fmap, list_lookup_imap.
      destruct (cs !! i) as [v|] eqn:Hv; [| reflexivity].
      destruct (Hp i v Hv) as (b & -> & Hl). simpl. rewrite Hl. reflexivity.
Qed.

Lemma onBindViewHolder_boundTo a position holder bound item :
  onBindViewHolder a position holder = (Ok (), bound) ->
  get (data a) position = Ok item ->
  boundTo item bound = true.
Proof.
  intros Hbind Hitem.
  destruct (onBindViewHolder_Ok_inv _ _ _ _ Hbind) as (item' & text & Hitem' & Htext & Hall).
  assert (item' = item) as -> by congruence.
  rewrite (onBindViewHolder_ok _ _ _ _ _ Hitem Htext Hall) in Hbind.
  injection Hbind as <-.
  apply boundTo_lookup. intros i v.
  cbn [update_translationsHolder translationsHolder set_verseText_text set_verseTitle_text].
  rewrite !updateButtons_lookup. intros Hv.
  apply fmap_Some in Hv as (v1 & Hv1 & ->).
  apply fmap_Some in Hv1 as (v0 & Hv0 & ->).
  assert (isButton v0 = true) as Hb.
  { unfold allButtons in Hall. rewrite forallb_lookup in Hall. exact (Hall i v0 Hv0). }
  destruct v0 as [b|o]; [| discriminate].
  eexists. split; [reflexivity |]. apply setOnClickListener_onClickListener.
Qed.

(** *** Clicks *)

#[local] Abbreviation clickedHolder holder t text :=
  (update_translationsHolder (updateButton t (setButtonStyle R_style_ibButtonBold))
     (update_translationsHolder (updateButtons (fun _ => setButtonStyle R_style_ibButton))
        (set_verseText_text (Span text) holder))) (only parsing).

Lemma boundTo_getChildAt item holder t :
  boundTo item holder = true ->
  0 <= t < childCount (translationsHolder holder) ->
  exists b, getChildAt t (translationsHolder holder) = Some (ViewButton b)
    /\ btn_onClickListener b = Some {| listener_item := item; listener_t := t |}.
Proof.
  intros Hb Ht. unfold childCount in Ht.
  destruct (lookup_lt_is_Some_2 (children (translationsHolder holder)) (Z.to_nat t))
    as [v Hv]; [lia |].
  destruct (proj1 (boundTo_lookup item holder) Hb _ _ Hv) as (b & -> & Hl).
  exists b. split.
  - apply getChildAt_lookup. split; [lia | exact Hv].
  - rewrite Hl. rewrite Z2Nat.id by lia. reflexivity.
Qed.

Lemma boundTo_allButtons item holder : boundTo item holder = true -> allButtons holder = true.
Proof. unfold boundTo. intros Hb. apply andb_prop in Hb as [Hall _]. exact Hall. Qed.

Lemma onClick_ok item t holder text :
  allButtons holder = true ->
  getHighlightedText (tv_context (verseText holder)) item t = Ok text ->
  onClick {| listener_item := item; listener_t := t |} holder
  = (Ok (), clickedHolder holder t text).
Proof.
  intros Hall Htext. unfold onClick. cbn [listener_item listener_t].
  unfold mbind at 1, M_bind at 1, gets at 1.
  unfold mbind at 1, M_bind at 1, lift at 1. rewrite Htext.
  unfold mbind at 1, M_bind at 1, modify at 1.
  unfold mbind at 1, M_bind at 1, gets at 1.
  unfold mbind at 1, M_bind at 1.
  set (holder1 := set_verseText_text _ _).
  rewrite (forEach_children_ok (fun _ => setButtonStyle R_style_ibButton) holder1 Hall).
  reflexivity.
Qed.

Lemma onClick_no_text item t holder e :
  getHighlightedText (tv_context (verseText holder)) item t = Throw e ->
  onClick {| listener_item := item; listener_t := t |} holder = (Throw e, holder).
Proof.
  intros Htext. unfold onClick. cbn [listener_item listener_t].
  unfold mbind at 1, M_bind at 1, gets at 1.
  unfold mbind at 1, M_bind at 1, lift at 1. rewrite Htext. reflexivity.
Qed.

Lemma performClick_bound item holder t :
  boundTo item holder = true ->
  0 <= t < childCount (translationsHolder holder) ->
  performClick t holder = onClick {| listener_item := item; listener_t := t |} holder.
Proof.
  intros Hb Ht. destruct (boundTo_getChildAt _ _ _ Hb Ht) as (b & Hc & Hl).
  unfold performClick. unfold mbind at 1, M_bind at 1, gets at 1.
  rewrite Hc, Hl. reflexivity.
Qed.

Lemma clickedHolder_boundTo item holder t text :
  boundTo item holder = true ->
  boundTo item (clickedHolder holder t text) = true.
Proof.
  rewrite !boundTo_lookup. intros Hp i v.
  cbn [update_translationsHolder translationsHolder set_verseText_text].
  rewrite updateButton_lookup, updateButtons_lookup. intros Hv.
  destruct (children (translationsHolder holder) !! i) as [v0|] eqn:Hv0.
  2:{ case_bool_decide; discriminate. }
  destruct (Hp i v0 Hv0) as (b & -> & Hl).
  case_bool_decide; simpl in Hv; injection Hv as <-; eexists; (split; [reflexivity |]);
    rewrite ?setButtonStyle_onClickListener; exact Hl.
Qed.

Lemma clickedHolder_textAppearance holder t text i v :
  R_style_ibButton <> R_style_ibButtonBold ->
  allButtons holder = true ->
  getChildAt i (translationsHolder (clickedHolder holder t text)) = Some v ->
  textAppearanceOf v = Some R_style_ibButtonBold <-> i = t.
Proof.
  intros Hne Hall Hv. apply getChildAt_lookup in Hv as [Hi Hv].
  cbn [update_translationsHolder translationsHolder set_verseText_text] in Hv.
  rewrite updateButton_lookup, updateButtons_lookup in Hv.
  destruct (children (translationsHolder holder) !! Z.to_nat i) as [v0|] eqn:Hv0.
  2:{ case_bool_decide; discriminate. }
  assert (isButton v0 = true) as Hb.
  { unfold allButtons in Hall. rewrite forallb_lookup in Hall. exact (Hall _ v0 Hv0). }
  destruct v0 as [b|o]; [| discriminate].
  rewrite Z2Nat.id in Hv by lia.
  case_bool_decide as Ht; simpl in Hv; injection Hv as <-; simpl;
    rewrite !setButtonStyle_textAppearance.
  - split; [intros _; congruence | reflexivity].
  - split; [intros [= Heq]; contradiction | intros ->; contradiction].
Qed.

(** C2: on a bound holder, a click on the button of translation [t] sets
    the verse text to the highlighted text of translation [t] of the bound
    result, [getHighlightedText(context, item, t)]. *)
Theorem C2_click_renders_translation
    (a : VerseResultAdapter) (position : Z) (holder bound : VerseResultViewHolder)
    (item : VerseResult) (t : Z) (text : Spanned) :
  onBindViewHolder a position holder = (Ok (), bound) ->
  get (data a) position = Ok item ->
  0 <= t < childCount (translationsHolder bound) ->
  getHighlightedText (tv_context (verseText bound)) item t = Ok text ->
  exists clicked,
    performClick t bound = (Ok (), clicked)
    /\ tv_text (verseText clicked) = Span text.
Proof.
  intros Hbind Hitem Ht Htext.
  pose proof (onBindViewHolder_boundTo _ _ _ _ _ Hbind Hitem) as Hb.
  eexists. split.
  - rewrite (performClick_bound item) by assumption.
    apply onClick_ok; [eapply boundTo_allButtons; eassumption | exact Htext].
  - reflexivity.
Qed.

(** C6: binding a verse result renders the verse text with the highlighted
    text of the result's top translation (the default of [idx]), gives the
    bold style to the button whose index is [topTranslationValue] and the
    plain style to every other button. *)
Theorem C6_bind_renders_top_translation
    (a : VerseResultAdapter) (position : Z) (holder : VerseResultViewHolder)
    (item : VerseResult) (text : Spanned) :
  get (data a) position = Ok item ->
  allButtons holder = true ->
  getHighlightedText_default (tv_context (verseText holder)) item = Ok text ->
  exists bound,
    onBindViewHolder a position holder = (Ok (), bound)
    /\ getHighlightedText (tv_context (verseText holder)) item (topTranslationValue item)
       = Ok text
    /\ tv_text (verseText bound) = Span text
    /\ childCount (translationsHolder bound) = childCount (translationsHolder holder)
    /\ forall t v,
         getChildAt t (translationsHolder bound) = Some v ->
         textAppearanceOf v =
         Some (if bool_decide (t = topTranslationValue item)
               then R_style_ibButtonBold
               else R_style_ibButton).
Proof.
  intros Hitem Hall Htext. unfold getHighlightedText_default in Htext.
  eexists. split; [exact (onBindViewHolder_ok _ _ _ _ _ Hitem Htext Hall) |].
  split; [exact Htext |]. split; [reflexivity |]. split.
  - cbn [update_translationsHolder translationsHolder set_verseText_text
           set_verseTitle_text].
    rewrite !updateButtons_childCount. reflexivity.
  - intros t v Hv. apply getChildAt_lookup in Hv as [Ht Hv].
    cbn [update_translationsHolder translationsHolder set_verseText_text
           set_verseTitle_text] in Hv.
    rewrite !updateButtons_lookup in Hv.
    apply fmap_Some in Hv as (v1 & Hv1 & ->).
    apply fmap_Some in Hv1 as (v0 & Hv0 & ->).
    assert (isButton v0 = true) as Hb.
    { unfold allButtons in Hall. rewrite forallb_lookup in Hall. exact (Hall _ v0 Hv0). }
    destruct v0 as [b|o]; [| discriminate].
    simpl. rewrite setOnClickListener_textAppearance, setButtonStyle_textAppearance.
    rewrite Z2Nat.id by lia. reflexivity.
Qed.

(** C8: [onBindViewHolder] reads [data[position]] and casts every child of
    the translations holder to [Button] without a check, and handles no
    exception.  It completes only if [0 <= position < data.size] and every
    child is a [Button]; outside the list it throws
    [IndexOutOfBoundsException] before it writes anything, and with a child
    that is not a [Button] the cast throws [ClassCastException]. *)
Theorem C8_bind_preconditions
    (a : VerseResultAdapter) (position : Z) (holder : VerseResultViewHolder) :
  ((onBindViewHolder a position holder).1 = Ok () <->
     (0 <= position < getItemCount a
      /\ allButtons holder = true
      /\ exists item text,
           get (data a) position = Ok item
           /\ getHighlightedText_default (tv_context (verseText holder)) item = Ok text))
  /\ (~ 0 <= position < getItemCount a ->
      onBindViewHolder a position holder = (Throw IndexOutOfBoundsException, holder))
  /\ (forall item text,
        get (data a) position = Ok item ->
        getHighlightedText_default (tv_context (verseText holder)) item = Ok text ->
        allButtons holder = false ->
        (onBindViewHolder a position holder).1 = Throw ClassCastException).
Proof.
  split; [split |].
  - intros Hok.
    destruct (onBindViewHolder a position holder) as [r bound] eqn:Hbind.
    simpl in Hok. subst r.
    destruct (onBindViewHolder_Ok_inv _ _ _ _ Hbind) as (item & text & Hitem & Htext & Hall).
    split; [| split; [exact Hall | exists item, text; split; assumption]].
    apply get_Ok in Hitem as [H0 Hl]. apply lookup_lt_Some in Hl.
    unfold getItemCount. lia.
  - intros (_ & Hall & item & text & Hitem & Htext).
    rewrite (onBindViewHolder_ok _ _ _ _ _ Hitem Htext Hall). reflexivity.
  - split.
    + apply onBindViewHolder_out_of_range.
    + intros item text Hitem Htext Hall.
      exact (onBindViewHolder_not_buttons _ _ _ _ _ Hitem Htext Hall).
Qed.

(** C9: after a click on a translation button of a bound holder, the
    clicked button is in the bold style and no other button is, whatever
    the styles were before; the holder stays bound, so this holds after
    every further click as well. *)
Theorem C9_click_leaves_one_bold
    (item : VerseResult) (holder : VerseResultViewHolder) (t : Z) (text : Spanned) :
  R_style_ibButton <> R_style_ibButtonBold ->
  boundTo item holder = true ->
  0 <= t < childCount (translationsHolder holder) ->
  getHighlightedText (tv_context (verseText holder)) item t = Ok text ->
  exists clicked,
    performClick t holder = (Ok (), clicked)
    /\ boundTo item clicked = true
    /\ childCount (translationsHolder clicked) = childCount (translationsHolder holder)
    /\ (exists btn,
          getChildAt t (translationsHolder clicked) = Some (ViewButton btn)
          /\ btn_textAppearance btn = R_style_ibButtonBold)
    /\ forall i v,
         getChildAt i (translationsHolder clicked) = Some v ->
         textAppearanceOf v = Some R_style_ibButtonBold <-> i = t.
Proof.
  intros Hne Hb Ht Htext.
  pose proof (boundTo_allButtons _ _ Hb) as Hall.
  eexists. split.
  { rewrite (performClick_bound item) by assumption.
    apply onClick_ok; [exact Hall | exact Htext]. }
  pose proof (clickedHolder_boundTo item holder t text Hb) as Hb'.
  assert (childCount (translationsHolder (clickedHolder holder t text))
          = childCount (translationsHolder holder)) as Hcount.
  { cbn [update_translationsHolder translationsHolder set_verseText_text].
    unfold childCount at 1. rewrite updateButton_length.
    fold (childCount (updateButtons (fun _ => setButtonStyle R_style_ibButton)
                        (translationsHolder holder))).
    apply updateButtons_childCount. }
  split; [exact Hb' |]. split; [exact Hcount |]. split.
  - rewrite <- Hcount in Ht.
    destruct (boundTo_getChildAt _ _ _ Hb' Ht) as (btn & Hc & _).
    exists btn. split; [exact Hc |].
    pose proof (clickedHolder_textAppearance holder t text t _ Hne Hall Hc) as Hbold.
    simpl in Hbold. assert (Some (btn_textAppearance btn) = Some R_style_ibButtonBold)
      as [= Heq] by (apply Hbold; reflexivity).
    exact Heq.
  - intros i v Hv. exact (clickedHolder_textAppearance holder t text i v Hne Hall Hv).
Qed.

End AdapterFacts.

Section AdapterExamples.
Import Adapter Fixtures.
#[local] Existing Instance device.
#[local] Existing Instance literalEngine.

Example bind_john :
  onBindViewHolder adapter 1 fresh_holder = (Ok (), bound_holder)
  /\ tv_text (verseTitle bound_holder) = Str "John 3:16"
  /\ map textAppearanceOf (children (translationsHolder bound_holder))
     = [Some R_style_ibButtonBold; Some R_style_ibButton; Some R_style_ibButton].
Proof. vm_compute. repeat split. Qed.

Lemma C2_click_renders_translation_witness :
  exists clicked,
    performClick 2 bound_holder = (Ok (), clicked)
    /\ tv_text (verseText clicked)
       = Span "For <b><font color='-65536' >God</font></b> so <b><font color='-65536' >loved</font></b> the world".
Proof.
  apply (C2_click_renders_translation adapter 1 fresh_holder bound_holder john_3_16 2).
  - vm_compute. reflexivity.
  - vm_compute. reflexivity.
  - vm_compute. split; [discriminate | reflexivity].
  - vm_compute. reflexivity.
Defined.

Lemma C6_bind_renders_top_translation_witness :
  exists bound,
    onBindViewHolder adapter 1 fresh_holder = (Ok (), bound)
    /\ getHighlightedText () john_3_16 0
       = Ok "For <b><font color='-65536' >God</font></b> so <b><font color='-65536' >loved</font></b> the world"
    /\ tv_text (verseText bound)
       = Span "For <b><font color='-65536' >God</font></b> so <b><font color='-65536' >loved</font></b> the world"
    /\ childCount (translationsHolder bound) = childCount (translationsHolder fresh_holder)
    /\ forall t v,
         getChildAt t (translationsHolder bound) = Some v ->
         textAppearanceOf v =
         Some (if bool_decide (t = 0) then R_style_ibButtonBold else R_style_ibButton).
Proof.
  apply (C6_bind_renders_top_translation adapter 1 fresh_holder john_3_16).
  - vm_compute. reflexivity.
  - vm_compute. reflexivity.
  - vm_compute. reflexivity.
Defined.

Lemma C9_click_leaves_one_bold_witness :
  exists clicked,
    performClick 2 bound_holder = (Ok (), clicked)
    /\ boundTo john_3_16 clicked = true
    /\ childCount (translationsHolder clicked) = childCount (translationsHolder bound_holder)
    /\ (exists btn,
          getChildAt 2 (translationsHolder clicked) = Some (ViewButton btn)
          /\ btn_textAppearance btn = R_style_ibButtonBold)
    /\ forall i v,
         getChildAt i (translationsHolder clicked) = Some v ->
         textAppearanceOf v = Some R_style_ibButtonBold <-> i = 2.
Proof.
  apply (C9_click_leaves_one_bold john_3_16 bound_holder 2
           "For <b><font color='-65536' >God</font></b> so <b><font color='-65536' >loved</font></b> the world").
  - vm_compute. discriminate.
  - vm_compute. reflexivity.
  - vm_compute. split; [discriminate | reflexivity].
  - vm_compute. reflexivity.
Defined.

(** Two clicks in a row: the second one moves the bold style. *)
Example click_twice :
  map textAppearanceOf
      (children (translationsHolder
                   (performClick 1 (performClick 2 bound_holder).2).2))
  = [Some R_style_ibButton; Some R_style_ibButtonBold; Some R_style_ibButton].
Proof. vm_compute. reflexivity. Qed.

(** A row with a child that is not a button cannot be bound. *)
Example bind_odd_holder :
  (onBindViewHolder adapter 1 odd_holder).1 = Throw ClassCastException.
Proof. vm_compute. reflexivity. Qed.

Example bind_past_the_end :
  onBindViewHolder adapter 2 fresh_holder = (Throw IndexOutOfBoundsException, fresh_holder).
Proof. vm_compute. reflexivity. Qed.

End AdapterExamples.

(** ** The adapter: the data property and new holders *)

Section AdapterData.
Import Adapter.

(** C5: for every list assigned to [data], [getItemCount] is the length of
    that list, the adapter holds exactly that list, the assignment notifies
    the observers of a change of the whole data set, and the positions the
    adapter can bind are the positions of that list, each with its item. *)
Theorem C5_data_setter_counts_and_notifies
    (value : list VerseResult) (a : VerseResultAdapter) :
  getItemCount (set_data value a) = Z.of_nat (length value)
  /\ data (set_data value a) = value
  /\ notified (set_data value a) = notified a ++ [DataSetChanged]
  /\ forall position item,
       get (data (set_data value a)) position = Ok item
       <-> 0 <= position < getItemCount (set_data value a)
           /\ value !! Z.to_nat position = Some item.
Proof.
  split; [reflexivity |]. split; [reflexivity |]. split; [reflexivity |].
  intros position item. unfold getItemCount. cbn [set_data notifyDataSetChanged data].
  rewrite get_Ok. split.
  - intros [H0 Hl]. split; [| exact Hl].
    apply lookup_lt_Some in Hl. lia.
  - intros [[H0 _] Hl]. split; assumption.
Qed.

(** A new adapter is empty and has notified nobody. *)
Lemma newAdapter_empty : getItemCount newAdapter = 0 /\ notified newAdapter = [].
Proof. split; reflexivity. Qed.

End AdapterData.

Section AdapterCreation.
Import Adapter.
Context {platform : AndroidPlatform}.
Variable inflate : Z -> Context -> ItemView.

Lemma foldl_addView (F : Z -> View) (ts : list Z) : forall g,
  foldl (fun translationsHolder t => addView (F t) translationsHolder) g ts
  = {| children := children g ++ map F ts |}.
Proof.
  induction ts as [|t ts IH]; intros g; simpl.
  - rewrite app_nil_r. destruct g. reflexivity.
  - rewrite IH. unfold addView. cbn [children]. rewrite <- app_assoc. reflexivity.
Qed.

(** The row of a new holder: the children the layout put there, then one
    button per translation. *)
Lemma onCreateViewHolder_children parent_context viewType :
  children (translationsHolder (onCreateViewHolder inflate parent_context viewType))
  = children (view_translations (inflate R_layout_verse_result_view parent_context))
    ++ map (fun t => ViewButton
                       (translationButton
                          (view_context (inflate R_layout_verse_result_view parent_context)) t))
           (until 0 TOTAL_VALUE).
Proof.
  unfold onCreateViewHolder, newViewHolder. cbn [translationsHolder view_translations].
  rewrite foldl_addView. reflexivity.
Qed.

Lemma translationButton_text context t :
  btn_text (translationButton context t) = Str (getTranslationLabel t).
Proof. unfold translationButton, setButtonStyle. case_bool_decide; reflexivity. Qed.

Lemma translationButton_tag context t :
  getTag R_string_translation_tag (translationButton context t) = Some t.
Proof.
  unfold translationButton, setButtonStyle, getTag.
  case_bool_decide; cbn; apply lookup_insert_eq.
Qed.

Lemma translationButton_textAppearance context t :
  btn_textAppearance (translationButton context t) = R_style_ibButton.
Proof. unfold translationButton, setButtonStyle. case_bool_decide; reflexivity. Qed.

Lemma until_0_lookup n (i : nat) :
  Z.of_nat i < n -> until 0 n !! i = Some (Z.of_nat i).
Proof. intros Hi. unfold until. apply lookup_seqZ. split; lia. Qed.

Lemma until_0_length n : 0 <= n -> Z.of_nat (length (until 0 n)) = n.
Proof. intros Hn. unfold until. rewrite length_seqZ. lia. Qed.

(** C10: a holder made by [onCreateViewHolder] from a layout whose
    translations row is empty has exactly [Data.Translation.TOTAL_VALUE]
    children, all of them buttons, and for every [t] in
    [0 until TOTAL_VALUE] child number [t] is a button labelled
    [getTranslationLabel(t)] and tagged with [t]. *)
Theorem C10_new_holder_has_one_button_per_translation
    (parent_context : Context) (viewType : Z) :
  children (view_translations (inflate R_layout_verse_result_view parent_context)) = [] ->
  0 <= TOTAL_VALUE ->
  childCount (translationsHolder (onCreateViewHolder inflate parent_context viewType))
    = TOTAL_VALUE
  /\ allButtons (onCreateViewHolder inflate parent_context viewType) = true
  /\ forall t, 0 <= t < TOTAL_VALUE ->
       exists btn,
         getChildAt t (translationsHolder (onCreateViewHolder inflate parent_context viewType))
           = Some (ViewButton btn)
         /\ btn_text btn = Str (getTranslationLabel t)
         /\ getTag R_string_translation_tag btn = Some t.
Proof.
  intros Hempty Htotal.
  pose proof (onCreateViewHolder_children parent_context viewType) as Hc.
  rewrite Hempty in Hc. simpl app in Hc.
  split; [| split].
  - unfold childCount. rewrite Hc, length_map. apply until_0_length. exact Htotal.
  - unfold allButtons. rewrite Hc. apply forallb_forall. intros v Hin.
    apply in_map_iff in Hin as (t & <- & _). reflexivity.
  - intros t Ht. eexists. split; [| split].
    + apply getChildAt_lookup. split; [lia |].
      rewrite Hc, list_lookup_fmap, (until_0_lookup _ (Z.to_nat t)) by lia.
      simpl. rewrite Z2Nat.id by lia. reflexivity.
    + apply translationButton_text.
    + apply translationButton_tag.
Qed.

End AdapterCreation.

Section AdapterCreationExamples.
Import Adapter Fixtures.
#[local] Existing Instance device.
#[local] Existing Instance literalEngine.

Lemma C10_new_holder_has_one_button_per_translation_witness :
  childCount (translationsHolder (onCreateViewHolder (platform := device) inflated () 0)) = 3
  /\ allButtons (onCreateViewHolder (platform := device) inflated () 0) = true
  /\ forall t, 0 <= t < 3 ->
       exists btn,
         getChildAt t (translationsHolder (onCreateViewHolder (platform := device) inflated () 0))
           = Some (ViewButton btn)
         /\ btn_text btn = Str (getTranslationLabel t)
         /\ getTag R_string_translation_tag btn = Some t.
Proof.
  apply (C10_new_holder_has_one_button_per_translation (platform := device) inflated () 0).
  - vm_compute. reflexivity.
  - vm_compute. discriminate.
Defined.

Example fresh_holder_labels :
  map (fun v => match v with
                | ViewButton btn => Some (btn_text btn, getTag R_string_translation_tag btn)
                | ViewOther _ => None
                end) (children (translationsHolder fresh_holder))
  = [Some (Str "KJV", Some 0); Some (Str "NET", Some 1); Some (Str "BSB", Some 2)].
Proof. vm_compute. reflexivity. Qed.

End AdapterCreationExamples.

(** ** The search header *)

Section HeaderFacts.
Import Header.
Context {Node Action SearchState : Type} `{EqDecision Node}.
Variable doSearch : string -> Action.
Variable doReset : Action.
Variable useQuery : SearchState -> string.
Variable useDirty : SearchState -> bool.
Variable theme_background : string.
Variable i18n : string -> string.

(** After mounting on a page without listeners, the two handlers listen
    for keyup, the one for [/] first. *)
Lemma mount_empty : mount [] = [("keyup", SlashListener); ("keyup", EscapeListener)].
Proof. reflexivity. Qed.

Lemma unmount_mount_empty : unmount (mount []) = [].
Proof. reflexivity. Qed.

Lemma dispatchEvent_mounted (current : option Node) (e : KeyboardEvent) :
  dispatchEvent doReset (mount []) current "keyup" e
  = slashHandler current e ++ escapeHandler doReset e.
Proof.
  rewrite mount_empty. unfold dispatchEvent.
  change (filter _ _) with [("keyup", SlashListener); ("keyup", EscapeListener)].
  simpl. rewrite app_nil_r. reflexivity.
Qed.

Lemma escapeHandler_other_key (e : KeyboardEvent (Node := Node)) :
  key e <> "Escape" -> escapeHandler doReset e = [].
Proof.
  intros Hk. unfold escapeHandler.
  destruct (String.eqb_spec (key e) "Escape"); [contradiction | reflexivity].
Qed.

Lemma slashHandler_other_key (current : option Node) (e : KeyboardEvent) :
  key e <> "/" -> slashHandler (Action := Action) current e = [].
Proof.
  intros Hk. unfold slashHandler. destruct current as [input|]; [| reflexivity].
  destruct (String.eqb_spec (key e) "/"); [contradiction |].
  rewrite andb_false_r. reflexivity.
Qed.

(** The guard of line 39: without an input element nothing happens. *)
Lemma slashHandler_no_input (e : KeyboardEvent (Node := Node)) :
  slashHandler (Action := Action) None e = [].
Proof. reflexivity. Qed.

(** The guard of line 43: a key released in the search input is left to
    the input. *)
Lemma slashHandler_in_input (input : Node) (e : KeyboardEvent) :
  target e = Some input -> slashHandler (Action := Action) (Some input) e = [].
Proof.
  intros Ht. unfold slashHandler.
  rewrite bool_decide_eq_false_2; [reflexivity |]. intros Hne. contradiction.
Qed.

(** C3, as amended: for every keyup event whose key is [/] and whose
    target is not the search input, with the search input mounted, the
    handler calls [preventDefault] on the event and focuses the search
    input, and that is all the mounted header does with the event. *)
Theorem C3_slash_outside_input_focuses_input (input : Node) (e : KeyboardEvent) :
  key e = "/" ->
  target e <> Some input ->
  slashHandler (Action := Action) (Some input) e = [PreventDefault; Focus input]
  /\ dispatchEvent doReset (mount []) (Some input) "keyup" e
     = [PreventDefault; Focus input].
Proof.
  intros Hk Ht.
  assert (slashHandler (Action := Action) (Some input) e = [PreventDefault; Focus input])
    as Hs.
  { unfold slashHandler. rewrite bool_decide_eq_true_2 by exact Ht.
    rewrite Hk. reflexivity. }
  split; [exact Hs |].
  rewrite dispatchEvent_mounted, Hs, escapeHandler_other_key; [reflexivity |].
  rewrite Hk. discriminate.
Qed.

(** C4: for every keyup event whose key is [Escape], whatever its target
    and whether or not the search input is mounted, the header dispatches
    [doReset()], once and nothing else; the handler stays registered on a
    document that has other listeners. *)
Theorem C4_escape_dispatches_reset (current : option Node) (e : KeyboardEvent) :
  key e = "Escape" ->
  escapeHandler doReset e = [Dispatch doReset]
  /\ dispatchEvent doReset (mount []) current "keyup" e = [Dispatch doReset]
  /\ forall document,
       Dispatch doReset ∈ dispatchEvent doReset (mount document) current "keyup" e.
Proof.
  intros Hk.
  assert (escapeHandler (Node := Node) doReset e = [Dispatch doReset]) as He.
  { unfold escapeHandler. rewrite Hk. reflexivity. }
  split; [exact He |]. split.
  - rewrite dispatchEvent_mounted, He, slashHandler_other_key; [reflexivity |].
    rewrite Hk. discriminate.
  - intros document. unfold dispatchEvent.
    apply list_elem_of_In, in_concat. exists [Dispatch doReset]. split; [| left; reflexivity].
    apply in_map_iff. exists ("keyup", EscapeListener). split; [exact He |].
    apply list_elem_of_In, list_elem_of_filter. split; [reflexivity |].
    unfold mount, addEventListener at 1.
    case_bool_decide as Hin; [exact Hin |].
    apply elem_of_app. right. left.
Qed.

(** C7: the value the input shows is the query that [useQuery] reads from
    the search state, and a change event on the input dispatches
    [doSearch] of the input's current value, unchanged, and nothing else. *)
Theorem C7_input_is_controlled_by_query (state : SearchState) :
  value (input (render (Node := Node) doSearch useQuery useDirty theme_background i18n
                       state))
    = useQuery state
  /\ forall e : FormEvent,
       onChange (input (render (Node := Node) doSearch useQuery useDirty
                               theme_background i18n state)) e
       = [Dispatch (doSearch (currentTarget_value e))].
Proof.
  split.
  - reflexivity.
  - intros e. reflexivity.
Qed.

(** The conditional styling follows the dirty flag of the state. *)
Lemma render_root_style (state : SearchState) :
  root (render (Node := Node) doSearch useQuery useDirty theme_background i18n state)
  = Root theme_background (useDirty state).
Proof. reflexivity. Qed.

End HeaderFacts.

Section HeaderExamples.
Import Header Fixtures.

(** C3 as stated fails: a [/] released in the search input itself is a
    keyup event with key [/], and the mounted header neither calls
    [preventDefault] nor focuses anything; it does nothing at all. *)
Lemma C3_counterexample_slash_in_input :
  key slash_in_input = "/"
  /\ slashHandler (Action := Action) (Some searchInput) slash_in_input = []
  /\ dispatchEvent Reset page (Some searchInput) "keyup" slash_in_input = []
  /\ (PreventDefault ∉ dispatchEvent Reset page (Some searchInput) "keyup" slash_in_input)
  /\ (Focus searchInput ∉ dispatchEvent Reset page (Some searchInput) "keyup" slash_in_input).
Proof.
  assert (dispatchEvent Reset page (Some searchInput) "keyup" slash_in_input = []) as Hnone
    by reflexivity.
  rewrite Hnone. repeat split; apply not_elem_of_nil.
Qed.

Lemma C3_slash_outside_input_focuses_input_witness :
  slashHandler (Action := Action) (Some searchInput) slash_on_page
    = [PreventDefault; Focus searchInput]
  /\ dispatchEvent Reset (mount []) (Some searchInput) "keyup" slash_on_page
     = [PreventDefault; Focus searchInput].
Proof.
  apply (C3_slash_outside_input_focuses_input Reset searchInput slash_on_page).
  - reflexivity.
  - vm_compute. discriminate.
Defined.

Lemma C4_escape_dispatches_reset_witness :
  escapeHandler Reset escape_in_input = [Dispatch Reset]
  /\ dispatchEvent Reset (mount []) (Some searchInput) "keyup" escape_in_input
     = [Dispatch Reset]
  /\ forall document,
       Dispatch Reset ∈ dispatchEvent Reset (mount document) (Some searchInput) "keyup"
                                       escape_in_input.
Proof.
  apply (C4_escape_dispatches_reset Reset (Some searchInput) escape_in_input).
  reflexivity.
Defined.

(** Before the input is mounted a [/] does nothing either. *)
Example slash_before_mount :
  dispatchEvent Reset page None "keyup" slash_on_page = [].
Proof. reflexivity. Qed.

(** After the header unmounts nothing listens. *)
Example escape_after_unmount :
  dispatchEvent Reset (unmount page) (Some searchInput) "keyup" escape_in_input = [].
Proof. reflexivity. Qed.

Example typing_dispatches_search :
  onChange (input (render (Node := nat) Search state_query state_dirty "white" id
                          {| state_query := "go"; state_dirty := true |}))
           {| currentTarget_value := "god" |}
  = [Dispatch (Search "god")].
Proof. reflexivity. Qed.

End HeaderExamples.

(** ** Highlighting: when it returns and what it throws *)

Section HighlightingErrors.
Import Adapter.
Context {platform : AndroidPlatform} {engine : RegexEngine}.

Lemma spec_rewrite_compiles color words : forall text,
  Forall (fun word => exists re, toRegex word IGNORE_CASE = Ok re) words ->
  exists html, spec_rewrite color words text = Ok html.
Proof.
  induction words as [|word words IH]; intros text Hall.
  - exists text. reflexivity.
  - inversion Hall as [|? ? [re Hre] Hrest]; subst. simpl. rewrite Hre.
    apply IH. exact Hrest.
Qed.

Lemma spec_rewrite_Ok_compiles color words : forall text html,
  spec_rewrite color words text = Ok html ->
  Forall (fun word => exists re, toRegex word IGNORE_CASE = Ok re) words.
Proof.
  induction words as [|word words IH]; intros text html Hok.
  - constructor.
  - simpl in Hok. destruct (toRegex word IGNORE_CASE) as [re|e] eqn:Hre; [| discriminate].
    constructor; [exists re; exact Hre | exact (IH _ _ Hok)].
Qed.

Lemma spec_rewrite_first_malformed color good word rest e : forall text,
  Forall (fun word => exists re, toRegex word IGNORE_CASE = Ok re) good ->
  toRegex word IGNORE_CASE = Throw e ->
  spec_rewrite color (good ++ word :: rest) text = Throw e.
Proof.
  induction good as [|g good IH]; intros text Hall Hbad.
  - simpl. rewrite Hbad. reflexivity.
  - inversion Hall as [|? ? [re Hre] Hrest]; subst. simpl. rewrite Hre.
    apply IH; assumption.
Qed.

Lemma getText_Ok_range item idx :
  (exists raw, getText item idx = Ok raw) <-> 0 <= idx < Z.of_nat (length (textList item)).
Proof.
  unfold getText. split.
  - intros [raw Hraw]. apply get_Ok in Hraw as [H0 Hl].
    apply lookup_lt_Some in Hl. lia.
  - apply get_in_range.
Qed.

(** X1: an index outside the texts of the result makes [getHighlightedText]
    throw [IndexOutOfBoundsException], whatever the highlight words are: the
    text is read before any word is compiled. *)
Theorem getHighlightedText_index_out_of_range context item idx :
  ~ 0 <= idx < Z.of_nat (length (textList item)) ->
  getHighlightedText context item idx = Throw IndexOutOfBoundsException.
Proof.
  intros Hr. unfold getHighlightedText, getText.
  rewrite get_out_of_range by exact Hr. reflexivity.
Qed.

(** X2: [getHighlightedText] returns a text exactly when the index is one
    of the texts of the result and every highlight word compiles to a
    regular expression. *)
Theorem getHighlightedText_returns_iff context item idx :
  (exists text, getHighlightedText context item idx = Ok text)
  <-> 0 <= idx < Z.of_nat (length (textList item))
      /\ Forall (fun word => exists re, toRegex word IGNORE_CASE = Ok re)
                (highlightsList item).
Proof.
  rewrite <- getText_Ok_range. unfold getHighlightedText. split.
  - intros [text Hok]. destruct (getText item idx) as [raw|e]; [| discriminate].
    split; [exists raw; reflexivity |]. simpl in Hok.
    rewrite fold_highlightWord_spec_rewrite in Hok.
    destruct (spec_rewrite _ (highlightsList item) raw) as [html|e] eqn:Hrw; [| discriminate].
    exact (spec_rewrite_Ok_compiles _ _ _ _ Hrw).
  - intros [[raw Hraw] Hall]. rewrite Hraw. simpl.
    rewrite fold_highlightWord_spec_rewrite.
    destruct (spec_rewrite_compiles
                (Int_toString (getColor context R_color_ibTextHighlight))
                (highlightsList item) raw Hall) as [html Hhtml].
    rewrite Hhtml. eexists. reflexivity.
Qed.

(** X3: with the index in range, the first highlight word that does not
    compile decides the outcome: [getHighlightedText] throws the exception
    of that word, whatever follows it in the list. *)
Theorem getHighlightedText_first_malformed_word context item idx good word rest e :
  0 <= idx < Z.of_nat (length (textList item)) ->
  highlightsList item = good ++ word :: rest ->
  Forall (fun word => exists re, toRegex word IGNORE_CASE = Ok re) good ->
  toRegex word IGNORE_CASE = Throw e ->
  getHighlightedText context item idx = Throw e.
Proof.
  intros Hr Hwords Hgood Hbad.
  apply getText_Ok_range in Hr as [raw Hraw].
  unfold getHighlightedText. rewrite Hraw, Hwords. simpl.
  rewrite fold_highlightWord_spec_rewrite.
  rewrite (spec_rewrite_first_malformed _ good word rest e raw Hgood Hbad). reflexivity.
Qed.

End HighlightingErrors.

Section HighlightingErrorExamples.
Import Adapter Fixtures.
#[local] Existing Instance device.
#[local] Existing Instance literalEngine.

Lemma getHighlightedText_index_out_of_range_witness :
  getHighlightedText () john_3_16 3 = Throw IndexOutOfBoundsException.
Proof.
  apply (getHighlightedText_index_out_of_range (platform := device) () john_3_16 3).
  simpl. lia.
Defined.

Lemma getHighlightedText_first_malformed_word_witness :
  getHighlightedText () malformed_result 1 = Throw PatternSyntaxException.
Proof.
  apply (getHighlightedText_first_malformed_word (platform := device) () malformed_result 1
           ["god"] "(" ["said"] PatternSyntaxException).
  - simpl. lia.
  - reflexivity.
  - constructor; [exists "god"; reflexivity | constructor].
  - reflexivity.
Defined.

(** An index out of range wins over a malformed word. *)
Example malformed_and_out_of_range :
  getHighlightedText () malformed_result 7 = Throw IndexOutOfBoundsException.
Proof. vm_compute. reflexivity. Qed.

End HighlightingErrorExamples.


(** ** The adapter: rebinding, clicks in a row and failures *)

Section AdapterBehaviour.
Import Adapter.
Context {platform : AndroidPlatform} {engine : RegexEngine}.

#[local] Abbreviation titleOf item :=
  (getBookName (book (key item)) +:+ " "
     +:+ Int_toString (chapter (key item)) +:+ ":"
     +:+ Int_toString (verse (key item))) (only parsing).

#[local] Abbreviation boundHolder item text holder :=
  (update_translationsHolder
     (updateButtons (fun t : Z =>
        setOnClickListener {| listener_item := item; listener_t := t |}))
     (update_translationsHolder
        (updateButtons (fun t : Z =>
           setButtonStyle (if bool_decide (t = topTranslationValue item)
                           then R_style_ibButtonBold
                           else R_style_ibButton)))
        (set_verseText_text (Span text)
           (set_verseTitle_text (Str (titleOf item)) holder)))) (only parsing).

#[local] Abbreviation clickedHolder holder t text :=
  (update_translationsHolder (updateButton t (setButtonStyle R_style_ibButtonBold))
     (update_translationsHolder (updateButtons (fun _ => setButtonStyle R_style_ibButton))
        (set_verseText_text (Span text) holder))) (only parsing).

Lemma holder_eq (h1 h2 : VerseResultViewHolder) :
  verseTitle h1 = verseTitle h2 ->
  verseText h1 = verseText h2 ->
  (forall i : nat, children (translationsHolder h1) !! i
                   = children (translationsHolder h2) !! i) ->
  h1 = h2.
Proof.
  destruct h1 as [t1 x1 [c1]], h2 as [t2 x2 [c2]]. simpl.
  intros -> -> Hc. f_equal. f_equal. apply list_eq. exact Hc.
Qed.

Lemma setButtonStyle_twice s1 s2 b :
  setButtonStyle s2 (setButtonStyle s1 b) = setButtonStyle s2 b.
Proof. unfold setButtonStyle. destruct b. cbn. case_bool_decide; reflexivity. Qed.

Lemma setButtonStyle_setOnClickListener s l b :
  setButtonStyle s (setOnClickListener l b) = setOnClickListener l (setButtonStyle s b).
Proof. unfold setButtonStyle. destruct b. cbn. case_bool_decide; reflexivity. Qed.

Lemma setOnClickListener_twice l1 l2 b :
  setOnClickListener l2 (setOnClickListener l1 b) = setOnClickListener l2 b.
Proof. destruct b. reflexivity. Qed.

Lemma setButtonStyle_same b :
  setButtonStyle (btn_textAppearance b) b = b.
Proof. unfold setButtonStyle. destruct b. cbn. case_bool_decide; reflexivity. Qed.

Lemma boundHolder_twice item1 text1 item2 text2 holder :
  boundHolder item2 text2 (boundHolder item1 text1 holder)
  = boundHolder item2 text2 holder.
Proof.
  apply holder_eq.
  - destruct holder as [[c s] x g]. reflexivity.
  - destruct holder as [t [c s] g]. reflexivity.
  - intros i.
    cbn [update_translationsHolder translationsHolder set_verseText_text
           set_verseTitle_text].
    rewrite !updateButtons_lookup.
    destruct (children (translationsHolder holder) !! i) as [[b|o]|]; simpl;
      [| reflexivity | reflexivity].
    rewrite setButtonStyle_setOnClickListener, setButtonStyle_twice,
      setOnClickListener_twice.
    reflexivity.
Qed.

(** X4: binding a holder that was bound before gives the holder that binding
    the original holder gives: title, text, styles and listeners of the
    earlier item are all overwritten. *)
Theorem rebind_forgets_previous_item
    (a1 a2 : VerseResultAdapter) (p1 p2 : Z) (holder h1 h2 : VerseResultViewHolder) :
  onBindViewHolder a1 p1 holder = (Ok (), h1) ->
  onBindViewHolder a2 p2 holder = (Ok (), h2) ->
  onBindViewHolder a2 p2 h1 = (Ok (), h2).
Proof.
  intros Hb1 Hb2.
  destruct (onBindViewHolder_Ok_inv _ _ _ _ Hb1) as (item1 & text1 & Hi1 & Ht1 & Hall).
  destruct (onBindViewHolder_Ok_inv _ _ _ _ Hb2) as (item2 & text2 & Hi2 & Ht2 & _).
  rewrite (onBindViewHolder_ok _ _ _ _ _ Hi1 Ht1 Hall) in Hb1. injection Hb1 as <-.
  rewrite (onBindViewHolder_ok _ _ _ _ _ Hi2 Ht2 Hall) in Hb2. injection Hb2 as <-.
  rewrite (onBindViewHolder_ok a2 p2 _ item2 text2 Hi2).
  - rewrite boundHolder_twice. reflexivity.
  - exact Ht2.
  - rewrite !updateButtons_allButtons. exact Hall.
Qed.

Lemma clickedHolder_twice holder t1 text1 t2 text2 :
  clickedHolder (clickedHolder holder t1 text1) t2 text2 = clickedHolder holder t2 text2.
Proof.
  apply holder_eq.
  - reflexivity.
  - destruct holder as [t [c s] g]. reflexivity.
  - intros i.
    cbn [update_translationsHolder translationsHolder set_verseText_text].
    rewrite !updateButton_lookup, !updateButtons_lookup, !updateButton_lookup,
      !updateButtons_lookup.
    destruct (children (translationsHolder holder) !! i) as [[b|o]|];
      repeat case_bool_decide; simpl; rewrite ?setButtonStyle_twice; reflexivity.
Qed.

(** X5: the holder after a click depends on the last click only: a click on
    [t2] after a click on [t1] leaves the holder that the click on [t2]
    alone leaves (so a second click on the same button changes nothing). *)
Theorem click_depends_on_last_click_only
    (item : VerseResult) (holder h1 h2 : VerseResultViewHolder) (t1 t2 : Z) :
  boundTo item holder = true ->
  0 <= t1 < childCount (translationsHolder holder) ->
  0 <= t2 < childCount (translationsHolder holder) ->
  performClick t1 holder = (Ok (), h1) ->
  performClick t2 holder = (Ok (), h2) ->
  performClick t2 h1 = (Ok (), h2).
Proof.
  intros Hb Ht1 Ht2 Hc1 Hc2.
  pose proof (boundTo_allButtons _ _ Hb) as Hall.
  rewrite (performClick_bound item) in Hc1 by assumption.
  rewrite (performClick_bound item) in Hc2 by assumption.
  destruct (getHighlightedText (tv_context (verseText holder)) item t1)
    as [text1|e] eqn:Hx1.
  2:{ rewrite (onClick_no_text _ _ _ _ Hx1) in Hc1. discriminate. }
  destruct (getHighlightedText (tv_context (verseText holder)) item t2)
    as [text2|e] eqn:Hx2.
  2:{ rewrite (onClick_no_text _ _ _ _ Hx2) in Hc2. discriminate. }
  rewrite (onClick_ok _ _ _ _ Hall Hx1) in Hc1. injection Hc1 as <-.
  rewrite (onClick_ok _ _ _ _ Hall Hx2) in Hc2. injection Hc2 as <-.
  pose proof (clickedHolder_boundTo item holder t1 text1 Hb) as Hb1.
  rewrite (performClick_bound item); [| exact Hb1 |].
  2:{ cbn [update_translationsHolder translationsHolder set_verseText_text].
      unfold childCount. rewrite updateButton_length, updateButtons_length.
      exact Ht2. }
  rewrite (onClick_ok item t2 _ text2).
  - rewrite clickedHolder_twice. reflexivity.
  - eapply boundTo_allButtons. exact Hb1.
  - exact Hx2.
Qed.


Lemma boundHolder_clicked_top item text holder :
  allButtons holder = true ->
  0 <= topTranslationValue item ->
  clickedHolder (boundHolder item text holder) (topTranslationValue item) text
  = boundHolder item text holder.
Proof.
  intros Hall Htop. apply holder_eq.
  - reflexivity.
  - destruct holder as [t [c s] g]. reflexivity.
  - intros i.
    cbn [update_translationsHolder translationsHolder set_verseText_text
           set_verseTitle_text].
    rewrite updateButton_lookup, !updateButtons_lookup.
    destruct (children (translationsHolder holder) !! i) as [[b|o]|];
      case_bool_decide as Hi; simpl; try reflexivity.
    + rewrite bool_decide_eq_true_2 by (symmetry; exact Hi).
      rewrite setButtonStyle_twice, setButtonStyle_setOnClickListener,
        setButtonStyle_twice. reflexivity.
    + rewrite bool_decide_eq_false_2 by (intros Heq; apply Hi; symmetry; exact Heq).
      rewrite setButtonStyle_setOnClickListener, setButtonStyle_twice. reflexivity.
Qed.

(** X6: a click on the button of the top translation leaves a holder as
    [onBindViewHolder] left it. *)
Theorem click_top_restores_bound_holder
    (a : VerseResultAdapter) (position : Z) (holder bound : VerseResultViewHolder)
    (item : VerseResult) :
  onBindViewHolder a position holder = (Ok (), bound) ->
  get (data a) position = Ok item ->
  0 <= topTranslationValue item < childCount (translationsHolder bound) ->
  performClick (topTranslationValue item) bound = (Ok (), bound).
Proof.
  intros Hbind Hitem Htop.
  pose proof (onBindViewHolder_boundTo _ _ _ _ _ Hbind Hitem) as Hb.
  destruct (onBindViewHolder_Ok_inv _ _ _ _ Hbind) as (item' & text & Hitem' & Htext & Hall).
  assert (item' = item) as -> by congruence.
  rewrite (performClick_bound item) by assumption.
  rewrite (onBindViewHolder_ok _ _ _ _ _ Hitem Htext Hall) in Hbind.
  injection Hbind as <-.
  rewrite (onClick_ok item _ _ text).
  - rewrite boundHolder_clicked_top; [reflexivity | exact Hall | lia].
  - rewrite !updateButtons_allButtons. exact Hall.
  - exact Htext.
Qed.


(** X8: a click whose text cannot be computed throws that exception and
    leaves the holder as it was: no text is written and no style changes. *)
Theorem click_without_text_leaves_holder
    (item : VerseResult) (holder : VerseResultViewHolder) (t : Z) (e : Throwable) :
  boundTo item holder = true ->
  0 <= t < childCount (translationsHolder holder) ->
  getHighlightedText (tv_context (verseText holder)) item t = Throw e ->
  performClick t holder = (Throw e, holder).
Proof.
  intros Hb Ht Htext. rewrite (performClick_bound item) by assumption.
  apply onClick_no_text. exact Htext.
Qed.

(** X9: a bind whose text cannot be computed throws that exception after
    it has written the title: the verse text and the buttons are as they
    were. *)
Theorem bind_without_text_writes_title_only
    (a : VerseResultAdapter) (position : Z) (holder : VerseResultViewHolder)
    (item : VerseResult) (e : Throwable) :
  get (data a) position = Ok item ->
  getHighlightedText_default (tv_context (verseText holder)) item = Throw e ->
  exists left,
    onBindViewHolder a position holder = (Throw e, left)
    /\ tv_text (verseTitle left) = Str (titleOf item)
    /\ verseText left = verseText holder
    /\ translationsHolder left = translationsHolder holder.
Proof.
  intros Hitem Htext. eexists. split.
  - exact (onBindViewHolder_no_text _ _ _ _ _ Hitem Htext).
  - repeat split.
Qed.


#[local] Abbreviation childLoopBody f :=
  (fun t =>
     child ← gets (fun holder => getChildAt t (translationsHolder holder));
     _ ← lift (asButton child);
     modify (update_translationsHolder (updateButton t (f t)))) (only parsing).

(** A loop over the children writes to the children only, also when it
    throws on the way. *)
Lemma forEach_children_keeps_texts (f : Z -> Button -> Button) xs : forall holder,
  verseTitle (forEach xs (childLoopBody f) holder).2 = verseTitle holder
  /\ verseText (forEach xs (childLoopBody f) holder).2 = verseText holder.
Proof.
  induction xs as [|x xs IH]; intros holder.
  - split; reflexivity.
  - rewrite forEach_cons.
    destruct (getChildAt x (translationsHolder holder)) as [[b|o]|] eqn:Hc.
    + rewrite (loop_body_button f _ _ b Hc).
      destruct (IH (update_translationsHolder (updateButton x (f x)) holder)) as [H1 H2].
      split; [rewrite H1 | rewrite H2]; reflexivity.
    + rewrite (loop_body_other f _ _ o Hc). split; reflexivity.
    + unfold mbind, M_bind, gets, lift. rewrite Hc. split; reflexivity.
Qed.

(** X10: a bind that meets a child that is not a button throws
    [ClassCastException] after it has written the title and the verse text
    of the item. *)
Theorem bind_cast_failure_keeps_title_and_text
    (a : VerseResultAdapter) (position : Z) (holder : VerseResultViewHolder)
    (item : VerseResult) (text : Spanned) :
  get (data a) position = Ok item ->
  getHighlightedText_default (tv_context (verseText holder)) item = Ok text ->
  allButtons holder = false ->
  exists left,
    onBindViewHolder a position holder = (Throw ClassCastException, left)
    /\ tv_text (verseTitle left) = Str (titleOf item)
    /\ tv_text (verseText left) = Span text.
Proof.
  intros Hitem Htext Hall. unfold getHighlightedText_default in Htext.
  unfold onBindViewHolder.
  unfold mbind at 1, M_bind at 1, lift at 1. rewrite Hitem.
  unfold mbind at 1, M_bind at 1, modify at 1.
  unfold mbind at 1, M_bind at 1, gets at 1.
  unfold mbind at 1, M_bind at 1, lift at 1.
  unfold getHighlightedText_default. cbn [set_verseTitle_text verseText].
  rewrite Htext.
  unfold mbind at 1, M_bind at 1, modify at 1.
  unfold mbind at 1, M_bind at 1, gets at 1.
  unfold mbind at 1, M_bind at 1.
  set (holder1 := set_verseText_text _ _).
  set (style := fun t : Z =>
         setButtonStyle (if bool_decide (t = topTranslationValue item)
                         then R_style_ibButtonBold else R_style_ibButton)).
  pose proof (forEach_children_fail style holder1 Hall) as Hloop.
  destruct (forEach_children_keeps_texts style
              (until 0 (childCount (translationsHolder holder1))) holder1) as [Htitle Hverse].
  fold style.
  destruct (forEach _ _ holder1) as [[[]|e] left] eqn:Hrun; simpl in Hloop;
    [discriminate |].
  rewrite Hloop. exists left. split; [reflexivity |].
  simpl in Htitle, Hverse. rewrite Htitle, Hverse. split; reflexivity.
Qed.

End AdapterBehaviour.

Section AdapterBehaviourExamples.
Import Adapter Fixtures.
#[local] Existing Instance device.
#[local] Existing Instance literalEngine.

Lemma rebind_forgets_previous_item_witness :
  onBindViewHolder adapter 1 genesis_holder = (Ok (), bound_holder).
Proof.
  apply (rebind_forgets_previous_item adapter adapter 0 1 fresh_holder).
  - vm_compute. reflexivity.
  - vm_compute. reflexivity.
Defined.

Lemma click_depends_on_last_click_only_witness :
  performClick 1 (performClick 2 bound_holder).2
  = (Ok (), (performClick 1 bound_holder).2).
Proof.
  apply (click_depends_on_last_click_only john_3_16 bound_holder _ _ 2 1).
  - vm_compute. reflexivity.
  - vm_compute. split; [discriminate | reflexivity].
  - vm_compute. split; [discriminate | reflexivity].
  - vm_compute. reflexivity.
  - vm_compute. reflexivity.
Defined.

Lemma click_top_restores_bound_holder_witness :
  performClick 0 bound_holder = (Ok (), bound_holder).
Proof.
  apply (click_top_restores_bound_holder adapter 1 fresh_holder bound_holder john_3_16).
  - vm_compute. reflexivity.
  - vm_compute. reflexivity.
  - vm_compute. split; [discriminate | reflexivity].
Defined.


Lemma click_without_text_leaves_holder_witness :
  performClick 2 short_holder = (Throw IndexOutOfBoundsException, short_holder).
Proof.
  apply (click_without_text_leaves_holder short_result short_holder 2).
  - vm_compute. reflexivity.
  - vm_compute. split; [discriminate | reflexivity].
  - vm_compute. reflexivity.
Defined.

Lemma bind_without_text_writes_title_only_witness :
  exists left,
    onBindViewHolder more_results 0 fresh_holder = (Throw PatternSyntaxException, left)
    /\ tv_text (verseTitle left) = Str "Genesis 1:3"
    /\ verseText left = verseText fresh_holder
    /\ translationsHolder left = translationsHolder fresh_holder.
Proof.
  apply (bind_without_text_writes_title_only more_results 0 fresh_holder malformed_result
           PatternSyntaxException).
  - vm_compute. reflexivity.
  - vm_compute. reflexivity.
Defined.

Lemma bind_cast_failure_keeps_title_and_text_witness :
  exists left,
    onBindViewHolder adapter 1 odd_holder = (Throw ClassCastException, left)
    /\ tv_text (verseTitle left) = Str "John 3:16"
    /\ tv_text (verseText left)
       = Span "For <b><font color='-65536' >God</font></b> so <b><font color='-65536' >loved</font></b> the world".
Proof.
  apply (bind_cast_failure_keeps_title_and_text adapter 1 odd_holder john_3_16).
  - vm_compute. reflexivity.
  - vm_compute. reflexivity.
  - vm_compute. reflexivity.
Defined.

End AdapterBehaviourExamples.


(** ** The adapter: from a new holder to a bound one *)

Section AdapterLifeCycle.
Import Adapter.
Context {platform : AndroidPlatform} {engine : RegexEngine}.
Variable inflate : Z -> Context -> ItemView.

Lemma translationButton_onClickListener context t :
  btn_onClickListener (translationButton context t) = None.
Proof. unfold translationButton, setButtonStyle. case_bool_decide; reflexivity. Qed.

Lemma until_0_length_nat n : length (until 0 n) = Z.to_nat n.
Proof. unfold until. rewrite length_seqZ. lia. Qed.

(** X11: whatever the layout inflates to, the new holder has the title and
    text views of the layout, the children of the layout row first and
    unchanged, and after them one button per translation; a
    [TOTAL_VALUE] below [0] adds none. *)
Theorem onCreateViewHolder_keeps_layout_children (parent_context : Context) (viewType : Z) :
  childCount (translationsHolder (onCreateViewHolder inflate parent_context viewType))
    = childCount (view_translations (inflate R_layout_verse_result_view parent_context))
      + Z.max 0 TOTAL_VALUE
  /\ verseTitle (onCreateViewHolder inflate parent_context viewType)
     = view_verse_title (inflate R_layout_verse_result_view parent_context)
  /\ verseText (onCreateViewHolder inflate parent_context viewType)
     = view_verse_text (inflate R_layout_verse_result_view parent_context)
  /\ (forall i,
        0 <= i < childCount (view_translations
                               (inflate R_layout_verse_result_view parent_context)) ->
        getChildAt i (translationsHolder
                        (onCreateViewHolder inflate parent_context viewType))
        = getChildAt i (view_translations
                          (inflate R_layout_verse_result_view parent_context)))
  /\ (forall t,
        0 <= t < TOTAL_VALUE ->
        getChildAt
          (childCount (view_translations
                         (inflate R_layout_verse_result_view parent_context)) + t)
          (translationsHolder (onCreateViewHolder inflate parent_context viewType))
        = Some (ViewButton
                  (translationButton
                     (view_context (inflate R_layout_verse_result_view parent_context))
                     t))).
Proof.
  pose proof (onCreateViewHolder_children inflate parent_context viewType) as Hc.
  set (view := inflate R_layout_verse_result_view parent_context) in *.
  split; [| split; [reflexivity | split; [reflexivity | split]]].
  - unfold childCount. rewrite Hc, length_app, length_map, until_0_length_nat. lia.
  - intros i Hi. unfold childCount in Hi. unfold getChildAt.
    case_bool_decide; [| reflexivity].
    rewrite Hc. apply lookup_app_l. lia.
  - intros t Ht. unfold childCount, getChildAt.
    rewrite bool_decide_eq_true_2 by lia. rewrite Hc.
    replace (Z.to_nat (Z.of_nat (length (children (view_translations view))) + t))
      with (length (children (view_translations view)) + Z.to_nat t)%nat by lia.
    rewrite lookup_app_r by lia.
    replace (length (children (view_translations view)) + Z.to_nat t
             - length (children (view_translations view)))%nat
      with (Z.to_nat t) by lia.
    rewrite list_lookup_fmap, (until_0_lookup _ (Z.to_nat t)) by lia.
    simpl. rewrite Z2Nat.id by lia. reflexivity.
Qed.

(** X12: the buttons of a new holder have no listener: until the holder is
    bound, a click on any of them does nothing. *)
Theorem click_before_bind_does_nothing (parent_context : Context) (viewType : Z) (t : Z) :
  children (view_translations (inflate R_layout_verse_result_view parent_context)) = [] ->
  performClick t (onCreateViewHolder inflate parent_context viewType)
  = (Ok (), onCreateViewHolder inflate parent_context viewType).
Proof.
  intros Hempty.
  pose proof (onCreateViewHolder_children inflate parent_context viewType) as Hc.
  rewrite Hempty in Hc. simpl app in Hc.
  unfold performClick. unfold mbind, M_bind, gets.
  destruct (getChildAt t (translationsHolder
                            (onCreateViewHolder inflate parent_context viewType)))
    as [[btn|o]|] eqn:Hv; try reflexivity.
  apply getChildAt_lookup in Hv as [Ht Hv]. rewrite Hc in Hv.
  apply list_lookup_fmap_Some in Hv as (t' & Hbtn & _).
  injection Hbtn as ->. rewrite translationButton_onClickListener. reflexivity.
Qed.

(** X13: a new holder can be bound: with an empty row in the layout, a
    position in the list and a text that can be computed,
    [onBindViewHolder] completes on it, and every button keeps its label
    and tag, carries the listener for its translation, and is bold exactly
    at the top translation. *)
Theorem new_holder_binds
    (a : VerseResultAdapter) (position : Z) (item : VerseResult) (text : Spanned)
    (parent_context : Context) (viewType : Z) :
  children (view_translations (inflate R_layout_verse_result_view parent_context)) = [] ->
  0 <= TOTAL_VALUE ->
  get (data a) position = Ok item ->
  getHighlightedText_default
    (tv_context (view_verse_text (inflate R_layout_verse_result_view parent_context)))
    item = Ok text ->
  exists bound,
    onBindViewHolder a position (onCreateViewHolder inflate parent_context viewType)
      = (Ok (), bound)
    /\ childCount (translationsHolder bound) = TOTAL_VALUE
    /\ forall t, 0 <= t < TOTAL_VALUE ->
         exists btn,
           getChildAt t (translationsHolder bound) = Some (ViewButton btn)
           /\ btn_text btn = Str (getTranslationLabel t)
           /\ getTag R_string_translation_tag btn = Some t
           /\ btn_onClickListener btn
              = Some {| listener_item := item; listener_t := t |}
           /\ btn_textAppearance btn
              = (if bool_decide (t = topTranslationValue item)
                 then R_style_ibButtonBold
                 else R_style_ibButton).
Proof.
  intros Hempty Htotal Hitem Htext.
  pose proof (onCreateViewHolder_children inflate parent_context viewType) as Hc.
  rewrite Hempty in Hc. simpl app in Hc.
  set (created := onCreateViewHolder inflate parent_context viewType) in *.
  assert (allButtons created = true) as Hall.
  { unfold allButtons. rewrite Hc. apply forallb_forall. intros v Hin.
    apply in_map_iff in Hin as (t & <- & _). reflexivity. }
  eexists. split.
  { exact (onBindViewHolder_ok a position created item text Hitem Htext Hall). }
  cbn [update_translationsHolder translationsHolder set_verseText_text
         set_verseTitle_text].
  split.
  - rewrite !updateButtons_childCount. unfold childCount.
    rewrite Hc, length_map. apply until_0_length. exact Htotal.
  - intros t Ht.
    eexists. split.
    + apply getChildAt_lookup. split; [lia |].
      rewrite !updateButtons_lookup, Hc, list_lookup_fmap,
        (until_0_lookup _ (Z.to_nat t)) by lia.
      simpl. rewrite Z2Nat.id by lia. reflexivity.
    + unfold translationButton, setButtonStyle, getTag.
      repeat case_bool_decide; cbn; repeat split; try apply lookup_insert_eq;
        try contradiction.
Qed.

End AdapterLifeCycle.

Section AdapterLifeCycleExamples.
Import Adapter Fixtures.
#[local] Existing Instance device.
#[local] Existing Instance literalEngine.

Lemma click_before_bind_does_nothing_witness :
  performClick 1 (onCreateViewHolder (platform := device) inflated () 0)
  = (Ok (), onCreateViewHolder (platform := device) inflated () 0).
Proof.
  apply (click_before_bind_does_nothing (platform := device) inflated () 0 1).
  vm_compute. reflexivity.
Defined.

Lemma new_holder_binds_witness :
  exists bound,
    onBindViewHolder adapter 1 (onCreateViewHolder (platform := device) inflated () 0)
      = (Ok (), bound)
    /\ childCount (translationsHolder bound) = 3
    /\ forall t, 0 <= t < 3 ->
         exists btn,
           getChildAt t (translationsHolder bound) = Some (ViewButton btn)
           /\ btn_text btn = Str (getTranslationLabel t)
           /\ getTag R_string_translation_tag btn = Some t
           /\ btn_onClickListener btn
              = Some {| listener_item := john_3_16; listener_t := t |}
           /\ btn_textAppearance btn
              = (if bool_decide (t = 0) then R_style_ibButtonBold else R_style_ibButton).
Proof.
  apply (new_holder_binds (platform := device) inflated adapter 1 john_3_16
           "For <b><font color='-65536' >God</font></b> so <b><font color='-65536' >loved</font></b> the world"
           () 0).
  - vm_compute. reflexivity.
  - vm_compute. discriminate.
  - vm_compute. reflexivity.
  - vm_compute. reflexivity.
Defined.

End AdapterLifeCycleExamples.


(** ** The search header: listeners and styling *)

Section HeaderBehaviour.
Import Header.
Context {Node Action SearchState : Type} `{EqDecision Node}.
Variable doSearch : string -> Action.
Variable doReset : Action.
Variable useQuery : SearchState -> string.
Variable useDirty : SearchState -> bool.
Variable theme_background : string.
Variable i18n : string -> string.

Lemma removeEventListener_absent type l (document : Document) :
  (type, l) ∉ document -> removeEventListener type l document = document.
Proof.
  unfold removeEventListener, Document in *.
  induction document as [|entry document IH]; intros Hnot.
  - reflexivity.
  - apply not_elem_of_cons in Hnot as [Hne Hnot].
    rewrite filter_cons_True by (intros Heq; apply Hne; symmetry; exact Heq).
    rewrite IH by exact Hnot. reflexivity.
Qed.

Lemma removeEventListener_app type l (d1 d2 : Document) :
  removeEventListener type l (d1 ++ d2)
  = removeEventListener type l d1 ++ removeEventListener type l d2.
Proof. unfold removeEventListener, Document in *. apply filter_app. Qed.

(** X14: on a document where the two handlers are not registered yet, the
    effects append them in order, and the clean-ups take exactly them away:
    the other listeners stay in place. *)
Theorem unmount_undoes_mount (document : Document) :
  ("keyup", SlashListener) ∉ document ->
  ("keyup", EscapeListener) ∉ document ->
  mount document
    = document ++ [("keyup", SlashListener); ("keyup", EscapeListener)]
  /\ unmount (mount document) = document.
Proof.
  intros Hs He.
  assert (mount document
          = document ++ [("keyup", SlashListener); ("keyup", EscapeListener)]) as Hm.
  { unfold mount, addEventListener.
    rewrite (bool_decide_eq_false_2 _ Hs).
    rewrite bool_decide_eq_false_2.
    - rewrite <- app_assoc. reflexivity.
    - intros Hin. apply elem_of_app in Hin as [Hin|Hin]; [exact (He Hin) |].
      apply list_elem_of_singleton in Hin. discriminate. }
  split; [exact Hm |].
  rewrite Hm. unfold unmount.
  rewrite !removeEventListener_app.
  rewrite (removeEventListener_absent _ _ document Hs).
  rewrite (removeEventListener_absent _ _ document He).
  change (removeEventListener "keyup" SlashListener
            [("keyup", SlashListener); ("keyup", EscapeListener)])
    with [("keyup", EscapeListener)].
  change (removeEventListener "keyup" EscapeListener [("keyup", EscapeListener)])
    with (@nil (string * Listener)).
  apply app_nil_r.
Qed.


(** X16: the mounted header does nothing on an event of any other type than
    keyup. *)
Theorem header_listens_for_keyup_only (current : option Node) (type : string) (e : KeyboardEvent) :
  type <> "keyup" ->
  dispatchEvent doReset (mount []) current type e = [].
Proof.
  intros Htype. rewrite mount_empty. unfold dispatchEvent, Document.
  rewrite !filter_cons_False by (simpl; intros Heq; apply Htype; symmetry; exact Heq).
  reflexivity.
Qed.

(** X17: what a keyup makes the mounted header do: it focuses a node only if
    that node is the mounted search input, the key is [/] and the target is
    not the input; it calls [preventDefault] exactly when it focuses; and it
    dispatches nothing but [doReset()], and that exactly on [Escape]. *)
Theorem keyup_effects_characterised (current : option Node) (e : KeyboardEvent) :
  (forall node,
     Focus node ∈ dispatchEvent doReset (mount []) current "keyup" e
     <-> current = Some node /\ target e <> Some node /\ key e = "/")
  /\ (PreventDefault ∈ dispatchEvent doReset (mount []) current "keyup" e
      <-> exists node, Focus node ∈ dispatchEvent doReset (mount []) current "keyup" e)
  /\ (forall action,
        Dispatch action ∈ dispatchEvent doReset (mount []) current "keyup" e
        <-> action = doReset /\ key e = "Escape").
Proof.
  rewrite dispatchEvent_mounted. unfold slashHandler, escapeHandler.
  destruct current as [input|];
    [destruct (decide (target e = Some input)) as [Ht|Ht];
     [rewrite (bool_decide_eq_false_2 (target e ≠ Some input)) by (intros Hne; exact (Hne Ht))
     |rewrite (bool_decide_eq_true_2 (target e ≠ Some input)) by exact Ht] |];
    destruct (String.eqb_spec (key e) "/") as [Hs|Hs];
    destruct (String.eqb_spec (key e) "Escape") as [He|He];
    try (rewrite Hs in He; discriminate); simpl.
  all: split; [| split].
  all: try (intros node); try (intros action).
  all: rewrite ?elem_of_cons, ?elem_of_nil.
  all: try (split; [intros Hin | intros Hout]).
  all: repeat match goal with
         | H : _ \/ _ |- _ => destruct H
         | H : _ /\ _ |- _ => destruct H
         | H : exists _, _ |- _ => destruct H
         | H : False |- _ => destruct H
         | H : Focus _ = Focus _ |- _ => injection H as <-
         | H : Dispatch _ = Dispatch _ |- _ => injection H as <-
         | H : Some _ = Some _ |- _ => injection H as <-
         | H : _ = _ |- _ => discriminate H
         end.
  all: try tauto.
  all: try congruence.
  all: try (exists input; rewrite ?elem_of_cons; tauto).
  all: try (match goal with H : _ ∈ _ |- _ =>
              rewrite ?elem_of_cons, ?elem_of_nil in H; intuition discriminate end).
  all: left; congruence.
Qed.


End HeaderBehaviour.

Section HeaderBehaviourExamples.
Import Header Fixtures.

Lemma unmount_undoes_mount_witness :
  mount busy_document
    = busy_document ++ [("keyup", SlashListener); ("keyup", EscapeListener)]
  /\ unmount (mount busy_document) = busy_document.
Proof.
  apply (unmount_undoes_mount busy_document).
  - apply not_elem_of_cons. split; [discriminate | apply not_elem_of_nil].
  - apply not_elem_of_cons. split; [discriminate | apply not_elem_of_nil].
Defined.

Lemma header_listens_for_keyup_only_witness :
  dispatchEvent Reset (mount []) (Some searchInput) "keydown" escape_in_input = [].
Proof.
  apply (header_listens_for_keyup_only Reset (Some searchInput) "keydown" escape_in_input).
  discriminate.
Defined.


End HeaderBehaviourExamples.

